(* ===== verification/_CoqProject ===== *)
-Q . S2P
Prelude.v
JsRuntime.v
Ollama.v
Langfuse.v
Gemini.v
Spec.v
Tracing.v
