(* ===== verification/Prelude.v ===== *)
(** * A verification development of llm-function-calling-ts

    The repository holds two independent TypeScript scripts that call a
    language model with "function calling" (tool use).  They share no code
    and do not communicate; each is a sequence of awaited calls:

    - [src/ollama/ollama_fn_call.ts]: declares two tools ([addTwoNumbers],
      [subtractTwoNumbers]), sends one user prompt to an Ollama server
      ([ollama.chat]), runs every tool call of the reply whose name resolves
      in the JS object [availableFunctions], pushes the reply message and a
      ["tool"] message per resolved call onto [messages], and sends the
      history once more to obtain the final answer.
    - [src/index.ts]: [StockPriceBot.processQuery] opens a Langfuse trace,
      starts a Gemini chat session, sends the query and, for the first
      function call named ["getStockPrice"], runs the mock [getStockPrice],
      sends its result back and returns the model's final text (an early
      [return] inside the loop); otherwise it returns the first reply's
      text.  Spans and events are recorded around each step; [main] runs
      one query and flushes Langfuse.

    ** Files, and what each models

    - [Prelude] (this file): the JS monad [JS E S A = S -> (E + A) * S] in
      which both scripts are written: an [async] function that may throw,
      whose side effects before the throw are kept; [js_bind], [js_try]
      ([try]/[catch]), [js_throw], the notation [x <- c ;; k] in [js_scope],
      the monad laws, the [js] hint database and [js_rw] rewrite database.
    - [JsRuntime]: the JavaScript semantics the code relies on: [value]
      (undefined, null, booleans, numbers as Rocq's primitive IEEE-754
      binary64 [float], strings, arrays, objects), [truthy], and the
      conversions [to_string], [to_number], [to_primitive], which may
      throw: a JSON object with its own [toString] key has no callable
      conversion method; the operators [js_add] (string concatenation as
      soon as one side is a string) and [js_sub], member access
      [get_member] (a TypeError on undefined/null), [v.toString()] and
      [toUpperCase] on ASCII, the [Object.prototype] members a computed
      lookup reaches and what calling them as plain functions does.  Number printing and
      parsing are the interface [NumberConversions]; [integral_conversions]
      implements it exactly on integers below 2^53 and is the instance the
      scenarios and witnesses run on.
    - [Ollama] ([Module Ollama]): [ollama_fn_call.ts] statement by
      statement: [addTwoNumbers], [subtractTwoNumbers], the tool
      declarations, [availableFunctions] and [lookup_function] (own key,
      else [Object.prototype], else undefined), [call_function],
      [process_tool_calls] (the [for] loop), [initial_request], [run] and
      [entry_point] (the top-level [.catch]).  State: the console and the
      requests sent; the server is a Section variable, any function from a
      request to a reply or a transport error.
    - [Langfuse] ([Module Langfuse]): the Langfuse client as a library: an
      append-only queue of trace/span/update/end/event/flush records with
      fresh identifiers (a counter for the UUIDs), and the queue's
      well-formedness, preserved by every operation.
    - [Gemini] ([Module Gemini]): [index.ts]: [stockPriceFunction],
      [bot_config] (the constructor), [getStockPrice] with its standalone
      span, [handle_stock_call] (the body of the [if]), [stock_loop] (the
      [for] loop with its early return), [processQuery] and [main].  State:
      console, Langfuse client, requests sent; the model ([generate]) and
      the clock ([now_iso]) are Section variables; the SDK's chat session
      ([send_message]) formats the parts as the SDK does ([format_new_content]:
      role ["user"], or ["function"] for function responses), sends them
      after the kept history and appends them with the reply's candidate;
      [response.functionCalls()] and [response.text()] may both throw.
      [processQuery_ref] is the same program without tracing, over the
      requests alone, with the loop replaced by [find]; [erases] relates a
      traced computation to an untraced one, with one congruence lemma per
      monadic construct.
    - [Spec] ([Module Spec]): the spec's Tool-Call Resolution Loop
      (section 4.3) over any resolver and handler invocation
      ([resolve_spec], [batch_history]: the reply, then one ["tool"]
      message per call, "tool not found" for an unknown name, the error
      message for a failed handler), instantiated with the Ollama
      script's [lookup_function] and handlers.
    - [Tracing] ([Module Tracing]): a Hoare logic over the Gemini monad
      for the spans of the Langfuse queue: [triple K O m Q] (from a
      well-formed queue that created [K], ends no span twice and has the
      open spans [O], [m] ends, returning or throwing, with open spans
      [O'] satisfying [Q]), rules in weakest-precondition form for each
      monadic construct and Langfuse call, and the [tstep] tactic that
      applies them.

    ** What the theorems show

    - The Ollama loop ([process_tool_calls_correct]) and the three paths
      of [run]: tool calls, no tool calls, transport error, plus handler
      errors and the empty [tool_calls] array; the lookup through the
      prototype chain, including arguments with their own [toString]; the
      handlers on number and string arguments.
    - Gemini: tracing never changes results or requests
      ([processQuery_refines], a refinement of [processQuery_ref] on every
      path); the loop ignores every call after the first ["getStockPrice"];
      the stock path, the no-stock path, the transport-error path (exact
      Langfuse queue, with the [sendMessage] span left open), handler
      errors propagating; [getStockPrice] on both branches; spans closed on
      success paths; [main] always completes and flushes last.
    - Tracing ([processQuery_span_discipline]): for every model and on
      every path, [processQuery] ends each span it opens exactly once when
      it returns, and when it throws leaves open at most the
      [sendMessage] or [sendFunctionResponse] span of the model call that
      failed.
    - The two scenarios of the spec run as [Example]s
      ([scenario_subtract_three_one], [scenario_apple_quote]).
    - Spec against code ([process_tool_calls_refines_spec_iff]): the
      Ollama loop builds the history of the spec's loop exactly when the
      batch is one call that resolves and succeeds.
    - Findings (see PROJECT.json) are stated as theorems: where the code
      and the spec's sections 3 and 4.1-4.4 disagree, the theorem states
      what the code does.

    ** Bounds and choices

    No fuel is needed: every loop of the code is a [for] over a finite
    list, modelled by structural recursion.  Numbers are exact IEEE-754
    doubles; only their printing and parsing is abstract
    ([NumberConversions]), and the witnesses use integers below 2^53, where
    [integral_conversions] is exact.  Strings are ASCII [string]s, so
    [toUpperCase] is modelled on ASCII only.  Identifiers of Langfuse
    observations are consecutive naturals (UUIDs are only compared for
    equality).  The clock is one ISO string per run.

    ** Not modelled

    HTTP transport and the providers' wire formats, the SDKs' JSON
    (de)serialisation, Langfuse batching and delivery, dotenv and the
    environment variables, Node's console formatting (entries keep their
    arguments), the text models generate (an oracle), and Unicode case
    mapping.

    ** Plan for the next sittings

    1. The Gemini loop against the spec's loop (a registry holding only
       ["getStockPrice"]), and the registry as a [Class] whose laws the
       two scripts' lookups discharge.
    2. [main] under the span logic: the spans left open after a run of
       every query.
    3. Round trip of [integral_conversions] ([string_to_number] after
       [number_to_string]) on safe integers, and the exactness of
       [js_add] on safe integers. *)

From Stdlib Require Export String List ZArith Lia.
From stdpp Require Export base list strings.
Export ListNotations.

(** ** The JS monad: state passing with exceptions that keep the state *)

Definition JS (E S A : Type) : Type := S -> (E + A) * S.

Declare Scope js_scope.
Delimit Scope js_scope with js.

Section Monad.
Context {E S : Type}.

Definition js_ret {A} (a : A) : JS E S A := fun s => (inr a, s).

Definition js_bind {A B} (m : JS E S A) (k : A -> JS E S B) : JS E S B :=
  fun s => match m s with
           | (inl e, s') => (inl e, s')
           | (inr a, s') => k a s'
           end.

Definition js_throw {A} (e : E) : JS E S A := fun s => (inl e, s).

(** [try { m } catch (e) { h(e) }]: the handler runs in the state the
    failing computation left behind. *)
Definition js_try {A} (m : JS E S A) (h : E -> JS E S A) : JS E S A :=
  fun s => match m s with
           | (inl e, s') => h e s'
           | r => r
           end.

Definition js_get : JS E S S := fun s => (inr s, s).
Definition js_modify (f : S -> S) : JS E S unit := fun s => (inr tt, f s).

Definition js_of_sum {A} (r : E + A) : JS E S A :=
  match r with inl e => js_throw e | inr a => js_ret a end.
End Monad.

Notation "x <- c1 ;; c2" := (js_bind c1 (fun x => c2))
  (at level 100, c1 at next level, right associativity) : js_scope.
Notation "c1 ;; c2" := (js_bind c1 (fun _ => c2))
  (at level 100, right associativity) : js_scope.

Create HintDb js discriminated.
Create Rewrite HintDb js_rw.
#[export] Hint Constants Transparent : js.

Section MonadLaws.
Context {E S : Type}.

Lemma js_bind_ret_l {A B} (a : A) (k : A -> JS E S B) :
  js_bind (js_ret a) k = k a.
Proof. reflexivity. Qed.

Lemma js_bind_ret_r {A} (m : JS E S A) s :
  js_bind m js_ret s = m s.
Proof. unfold js_bind, js_ret. destruct (m s) as [[e|a] s']; reflexivity. Qed.

Lemma js_bind_assoc {A B C} (m : JS E S A) (k : A -> JS E S B) (h : B -> JS E S C) s :
  js_bind (js_bind m k) h s = js_bind m (fun a => js_bind (k a) h) s.
Proof. unfold js_bind. destruct (m s) as [[e|a] s']; reflexivity. Qed.

Lemma js_bind_throw {A B} (e : E) (k : A -> JS E S B) :
  js_bind (js_throw e) k = js_throw e.
Proof. reflexivity. Qed.

Lemma js_run_bind_ok {A B} (m : JS E S A) (k : A -> JS E S B) s a s' :
  m s = (inr a, s') -> js_bind m k s = k a s'.
Proof. unfold js_bind. intros ->. reflexivity. Qed.

Lemma js_run_bind_err {A B} (m : JS E S A) (k : A -> JS E S B) s e s' :
  m s = (inl e, s') -> js_bind m k s = (inl e, s').
Proof. unfold js_bind. intros ->. reflexivity. Qed.

Lemma js_run_try_ok {A} (m : JS E S A) (h : E -> JS E S A) s a s' :
  m s = (inr a, s') -> js_try m h s = (inr a, s').
Proof. unfold js_try. intros ->. reflexivity. Qed.

Lemma js_run_try_err {A} (m : JS E S A) (h : E -> JS E S A) s e s' :
  m s = (inl e, s') -> js_try m h s = h e s'.
Proof. unfold js_try. intros ->. reflexivity. Qed.
End MonadLaws.

#[export] Hint Rewrite @js_bind_ret_l @js_bind_throw : js_rw.
#[export] Hint Resolve js_run_bind_ok js_run_try_ok : js.

(** [js_run]: evaluate the monadic plumbing of a goal. *)
Ltac js_run :=
  cbn [js_bind js_ret js_throw js_try js_get js_modify js_of_sum] in *.

(** ** Generic list lemmas shared by the components *)

#[export] Hint Rewrite @length_app @app_nil_r : js_rw.

(** Looking a string key up in an association list with [find]. *)
Lemma find_key_None {B} (l : list (string * B)) (k : string) :
  List.find (fun kv => String.eqb (fst kv) k) l = None <-> ~ In k (map fst l).
Proof.
  induction l as [|[k' v] l IH]; cbn; [tauto|].
  destruct (String.eqb_spec k' k) as [->|Hne]; [split; [discriminate | tauto]|].
  rewrite IH. intuition congruence.
Qed.
