(* ===== verification/JsRuntime.v ===== *)
(** * The JavaScript semantics the two scripts rely on

    Values as the engine has them (numbers are IEEE-754 binary64, which is
    what Rocq's primitive [float] is, with the same round-to-nearest [+]
    and [-]), the abstract operations [ToString], [ToNumber],
    [ToPrimitive], the binary operators [+] and [-] (ECMAScript 13.15.3,
    ApplyStringOrNumericBinaryOperator), member access, the two methods the
    code calls on values ([toUpperCase], [toString]), the members of
    [Object.prototype] that a computed lookup [obj[name]] reaches, and
    errors.  The engine's number/string conversions are an interface. *)

From S2P Require Import Prelude.
From Stdlib Require Import Floats DecimalString.

Local Open Scope string_scope.
Local Set Warnings "-register-all".


(** ** Values and errors *)

Inductive value : Type :=
| VUndefined
| VNull
| VBool (b : bool)
| VNumber (n : float)
| VString (s : string)
| VArray (elems : list value)
| VObject (props : list (string * value)).

(** A thrown [Error]: its [name] ("TypeError", "Error", ...) and [message]. *)
Record exn : Type := mk_exn { exn_name : string; exn_message : string }.

Definition type_error (msg : string) : exn := mk_exn "TypeError" msg.

(** [x instanceof Error ? x.message : String(x)]: every exception of the
    model is an [Error], so this is its message. *)
Definition error_message (e : exn) : string := exn_message e.

(** ** Member access *)

(** The value bound to [p] among an object's own properties; when a key
    repeats (as [JSON.parse] allows) the last binding wins. *)
Definition own_property (props : list (string * value)) (p : string) : option value :=
  fold_left (fun acc kv => if String.eqb (fst kv) p then Some (snd kv) else acc) props None.

(** [Object.hasOwn(o, p)] on an object's own properties. *)
Definition has_own (props : list (string * value)) (p : string) : bool :=
  match own_property props p with Some _ => true | None => false end.

(** [o.p] for a property name [p] that is not a member of a built-in
    prototype (the code reads [a], [b], [symbol], [name], [arguments]). *)
Definition get_member (o : value) (p : string) : exn + value :=
  match o with
  | VUndefined => inl (type_error ("Cannot read properties of undefined (reading '" ++ p ++ "')"))
  | VNull => inl (type_error ("Cannot read properties of null (reading '" ++ p ++ "')"))
  | VObject props => inr (match own_property props p with Some v => v | None => VUndefined end)
  | _ => inr VUndefined
  end.

(** ** The engine's number conversions (an interface) *)

Class NumberConversions : Type := {
  (** Number::toString(x) in radix 10 (ECMAScript 6.1.6.1.20) *)
  number_to_string : float -> string;
  (** StringToNumber(s) (ECMAScript 7.1.4.1.1) *)
  string_to_number : string -> float
}.

Section Conversions.
Context `{NumberConversions}.

(** ToBoolean *)
Definition truthy (v : value) : bool :=
  match v with
  | VUndefined | VNull => false
  | VBool b => b
  | VNumber n => negb (PrimFloat.is_zero n || PrimFloat.is_nan n)
  | VString s => negb (String.eqb s "")
  | VArray _ | VObject _ => true
  end.

(** OrdinaryToPrimitive on a plain object parsed from JSON, for either
    hint: an own [valueOf] or [toString] holds a JSON value, which is not
    callable and is skipped; the inherited [valueOf] returns the object
    itself, which is skipped too; so the inherited [toString] decides,
    and an own [toString] key leaves no method: a TypeError. *)
Definition object_to_primitive (props : list (string * value)) : exn + string :=
  if has_own props "toString" then inl (type_error "Cannot convert object to primitive value")
  else inr "[object Object]".

(** ToString; an array is [join(",")] of its elements (Array.prototype
    toString), undefined and null elements printed as the empty string;
    the first element whose conversion throws aborts the join. *)
Fixpoint to_string (v : value) : exn + string :=
  match v with
  | VUndefined => inr "undefined"
  | VNull => inr "null"
  | VBool true => inr "true"
  | VBool false => inr "false"
  | VNumber n => inr (number_to_string n)
  | VString s => inr s
  | VArray es =>
      (fix join (es : list value) : exn + string :=
         match es with
         | [] => inr ""
         | e :: rest =>
             match (match e with VUndefined | VNull => inr "" | _ => to_string e end) with
             | inl err => inl err
             | inr se =>
                 match rest with
                 | [] => inr se
                 | _ :: _ => match join rest with
                             | inl err => inl err
                             | inr sr => inr (se ++ "," ++ sr)
                             end
                 end
             end
         end) es
  | VObject props => object_to_primitive props
  end.

(** ToPrimitive with the default hint: arrays and plain objects have no
    primitive [valueOf], so their [toString] is used. *)
Definition to_primitive (v : value) : exn + value :=
  match v with
  | VArray _ | VObject _ => match to_string v with inl e => inl e | inr t => inr (VString t) end
  | _ => inr v
  end.

(** ToNumber *)
Definition to_number (v : value) : exn + float :=
  match v with
  | VUndefined => inr PrimFloat.nan
  | VNull => inr PrimFloat.zero
  | VBool b => inr (if b then PrimFloat.one else PrimFloat.zero)
  | VNumber n => inr n
  | VString s => inr (string_to_number s)
  | VArray _ | VObject _ => match to_string v with inl e => inl e | inr t => inr (string_to_number t) end
  end.

(** [a + b] (ApplyStringOrNumericBinaryOperator): ToPrimitive of the left
    operand, then of the right; concatenation as soon as one primitive is
    a string, else the sum of the two numbers (ToNumber cannot throw on a
    primitive). *)
Definition js_add (a b : value) : exn + value :=
  match to_primitive a with
  | inl e => inl e
  | inr pa =>
      match to_primitive b with
      | inl e => inl e
      | inr pb =>
          match pa, pb with
          | VString _, _ | _, VString _ =>
              match to_string pa, to_string pb with
              | inr sa, inr sb => inr (VString (sa ++ sb))
              | inl e, _ | _, inl e => inl e
              end
          | _, _ =>
              match to_number pa, to_number pb with
              | inr x, inr y => inr (VNumber (x + y)%float)
              | inl e, _ | _, inl e => inl e
              end
          end
      end
  end.

(** [a - b]: ToNumeric of the left operand, then of the right. *)
Definition js_sub (a b : value) : exn + value :=
  match to_number a with
  | inl e => inl e
  | inr x => match to_number b with
             | inl e => inl e
             | inr y => inr (VNumber (x - y)%float)
             end
  end.

(** [v.toString()]: a TypeError on undefined and null; an own [toString]
    property of a JSON object is a value, not a function, and calling it
    is a TypeError (the engine prefixes the message with the receiver's
    source text); otherwise the prototype's [toString], which on every
    value of the model is ToString. *)
Definition call_toString (v : value) : exn + string :=
  match v with
  | VUndefined => inl (type_error "Cannot read properties of undefined (reading 'toString')")
  | VNull => inl (type_error "Cannot read properties of null (reading 'toString')")
  | VObject props =>
      if has_own props "toString" then inl (type_error "toString is not a function") else to_string v
  | _ => to_string v
  end.
End Conversions.

(** ** [String.prototype.toUpperCase] on ASCII text *)

Definition ascii_upper (c : Ascii.ascii) : Ascii.ascii :=
  let n := Ascii.nat_of_ascii c in
  if ((97 <=? n) && (n <=? 122))%nat then Ascii.ascii_of_nat (n - 32)%nat else c.

Fixpoint to_upper (s : string) : string :=
  match s with
  | EmptyString => EmptyString
  | String c rest => String (ascii_upper c) (to_upper rest)
  end.

(** [v.toUpperCase()]: only strings have the method. *)
Definition call_toUpperCase (v : value) : exn + value :=
  match v with
  | VUndefined => inl (type_error "Cannot read properties of undefined (reading 'toUpperCase')")
  | VNull => inl (type_error "Cannot read properties of null (reading 'toUpperCase')")
  | VString s => inr (VString (to_upper s))
  | _ => inl (type_error "toUpperCase is not a function")
  end.

(** ** [Object.prototype]: what [obj[name]] finds when [obj] lacks [name] *)

Inductive proto_member : Type :=
| ProtoConstructor | ProtoDefineGetter | ProtoDefineSetter | ProtoHasOwnProperty
| ProtoLookupGetter | ProtoLookupSetter | ProtoIsPrototypeOf
| ProtoPropertyIsEnumerable | ProtoToString | ProtoValueOf | ProtoProto
| ProtoToLocaleString.

Definition object_prototype : list (string * proto_member) :=
  [("constructor", ProtoConstructor); ("__defineGetter__", ProtoDefineGetter);
   ("__defineSetter__", ProtoDefineSetter); ("hasOwnProperty", ProtoHasOwnProperty);
   ("__lookupGetter__", ProtoLookupGetter); ("__lookupSetter__", ProtoLookupSetter);
   ("isPrototypeOf", ProtoIsPrototypeOf); ("propertyIsEnumerable", ProtoPropertyIsEnumerable);
   ("toString", ProtoToString); ("valueOf", ProtoValueOf); ("__proto__", ProtoProto);
   ("toLocaleString", ProtoToLocaleString)].

Definition proto_lookup (name : string) : option proto_member :=
  snd <$> List.find (fun kv => String.eqb (fst kv) name) object_prototype.

(** Calling an inherited member as a plain function [f(arg)]: [this] is
    undefined.  [Object(arg)] returns [arg] (for a primitive, its wrapper,
    whose [toString()] is the primitive's); [Object.prototype.toString]
    gives ["[object Undefined]"]; [isPrototypeOf] answers [false] for a
    primitive argument; [__proto__] is an object, not a function; every
    other member starts with ToObject(this) and throws. *)
Definition call_proto_member (m : proto_member) (arg : value) : exn + value :=
  match m with
  | ProtoConstructor =>
      inr (match arg with VUndefined | VNull => VObject [] | _ => arg end)
  | ProtoToString => inr (VString "[object Undefined]")
  | ProtoIsPrototypeOf =>
      match arg with
      | VArray _ | VObject _ => inl (type_error "Cannot convert undefined or null to object")
      | _ => inr (VBool false)
      end
  | ProtoProto => inl (type_error "functionToCall is not a function")
  | _ => inl (type_error "Cannot convert undefined or null to object")
  end.

(** ** The console: an append-only log of calls with their arguments *)

Inductive console_entry (A : Type) : Type :=
| ConsoleLog (args : list A)
| ConsoleError (args : list A).
Arguments ConsoleLog {A} args.
Arguments ConsoleError {A} args.

(** ** Number conversions on integral values

    An instance of [NumberConversions] exact on integral numbers below
    2^53 in magnitude (where Number::toString prints the plain decimal
    integer and StringToNumber reads one), which is what the witnesses
    run the scripts on.  Outside that range it answers ["NaN"] / [NaN]
    for what it does not print or read; no theorem relies on those
    answers, which the generic theorems leave abstract. *)

Definition float_of_Z (z : Z) : float :=
  if (z <? 0)%Z then (- PrimFloat.of_uint63 (Uint63Axioms.of_Z (- z)))%float
  else PrimFloat.of_uint63 (Uint63Axioms.of_Z z).

(** The integer a finite float denotes, when it is integral. *)
Definition float_integral (f : float) : option Z :=
  match Prim2SF f with
  | S754_zero _ => Some 0%Z
  | S754_finite s m e =>
      let mag := if (0 <=? e)%Z then Some (Z.pos m * 2 ^ e)%Z
                 else if (Z.pos m mod 2 ^ (- e) =? 0)%Z then Some (Z.pos m / 2 ^ (- e))%Z
                 else None in
      (fun z => if s then (- z)%Z else z) <$> mag
  | _ => None
  end.

Definition safe_integer_bound : Z := (2 ^ 53)%Z.

#[export] Instance integral_conversions : NumberConversions := {
  number_to_string f :=
    match float_integral f with
    | Some z => if (Z.abs z <? safe_integer_bound)%Z
                then NilEmpty.string_of_int (Z.to_int z) else "NaN"
    | None => "NaN"
    end;
  string_to_number s :=
    match NilEmpty.int_of_string s with
    | Some d => let z := Z.of_int d in
                if (Z.abs z <? safe_integer_bound)%Z then float_of_Z z else PrimFloat.nan
    | None => PrimFloat.nan
    end
}.
