(* ===== verification/Ollama.v ===== *)
(** * [src/ollama/ollama_fn_call.ts]: the Ollama tool-calling script

    The tool declarations, the two handlers, the [availableFunctions] object
    looked up by a computed key (so through [Object.prototype]), the loop
    over [response.message.tool_calls] and [run], written in the [JS] monad
    over a state holding the console and the requests sent to the server.
    The Ollama server is a Section variable: any function from a request to
    a reply or a transport error.  Theorems: the three paths of [run], the
    history sent back to the model, the lookup, and the JS arithmetic of
    the handlers. *)

From S2P Require Import Prelude JsRuntime.
From Stdlib Require Import Floats.

Local Open Scope string_scope.
Local Open Scope list_scope.
Local Open Scope js_scope.

Module Ollama.

(** ** The Ollama SDK's request and reply shapes (the fields the code uses) *)

Record param := mk_param { param_name : string; param_type : string; param_description : string }.

Record tool_function := mk_tool_function {
  fn_name : string;
  fn_description : string;
  fn_required : list string;
  fn_properties : list param
}.

Record tool := mk_tool { tool_type : string; tool_fn : tool_function }.

Record tool_call := mk_tool_call { call_name : string; call_arguments : value }.

Record message := mk_message {
  msg_role : string;
  msg_content : string;
  msg_tool_calls : option (list tool_call)
}.

Record chat_request := mk_request {
  req_model : string;
  req_messages : list message;
  req_tools : option (list tool)
}.

Record chat_response := mk_response { resp_message : message }.

(** Arguments of the [console.log] calls. *)
Inductive log_arg : Type :=
| LStr (s : string)
| LValue (v : value)
| LResponse (r : chat_response)
| LExn (e : exn).

Record state := mk_state {
  st_console : list (console_entry log_arg);
  st_requests : list chat_request
}.

Definition init_state : state := mk_state [] [].

Definition M := JS exn state.

Definition console_log (args : list log_arg) : M unit :=
  js_modify (fun s => mk_state (st_console s ++ [ConsoleLog args]) (st_requests s)).

Definition console_error (args : list log_arg) : M unit :=
  js_modify (fun s => mk_state (st_console s ++ [ConsoleError args]) (st_requests s)).

(** ** The handlers and tool declarations (lines 4-45) *)

Section Handlers.
Context `{NumberConversions}.

Definition addTwoNumbers (args : value) : exn + value :=
  match get_member args "a", get_member args "b" with
  | inr a, inr b => js_add a b
  | inl e, _ | _, inl e => inl e
  end.

Definition subtractTwoNumbers (args : value) : exn + value :=
  match get_member args "a", get_member args "b" with
  | inr a, inr b => js_sub a b
  | inl e, _ | _, inl e => inl e
  end.
End Handlers.

Definition number_param (n d : string) : param := mk_param n "number" d.

Definition addTwoNumbersTool : tool :=
  mk_tool "function"
    (mk_tool_function "addTwoNumbers" "Add two numbers together" ["a"; "b"]
       [number_param "a" "The first number"; number_param "b" "The second number"]).

Definition subtractTwoNumbersTool : tool :=
  mk_tool "function"
    (mk_tool_function "subtractTwoNumbers" "Subtract two numbers" ["a"; "b"]
       [number_param "a" "The first number"; number_param "b" "The second number"]).

(** ** [availableFunctions] and the computed lookup (lines 53-56, 69-72) *)

Inductive handler := HAddTwoNumbers | HSubtractTwoNumbers.

Definition availableFunctions : list (string * handler) :=
  [("addTwoNumbers", HAddTwoNumbers); ("subtractTwoNumbers", HSubtractTwoNumbers)].

(** What [availableFunctions[name]] yields: an own property, else a member
    of [Object.prototype], else [undefined] ([None]). *)
Inductive fn_ref := OwnFunction (h : handler) | Inherited (m : proto_member).

Definition lookup_function (name : string) : option fn_ref :=
  match List.find (fun kv => String.eqb (fst kv) name) availableFunctions with
  | Some (_, h) => Some (OwnFunction h)
  | None => Inherited <$> proto_lookup name
  end.

Section Run.
Context `{NumberConversions}.

(** [functionToCall(tool.function.arguments)] (line 76) *)
Definition call_function (f : fn_ref) (args : value) : exn + value :=
  match f with
  | OwnFunction HAddTwoNumbers => addTwoNumbers args
  | OwnFunction HSubtractTwoNumbers => subtractTwoNumbers args
  | Inherited m => call_proto_member m args
  end.

(** The Ollama server: a reply or a rejected promise for every request. *)
Variable server : chat_request -> exn + chat_response.

Definition ollama_chat (req : chat_request) : M chat_response :=
  js_modify (fun s => mk_state (st_console s) (st_requests s ++ [req])) ;;
  js_of_sum (server req).

Definition user_message (text : string) : message := mk_message "user" text None.
Definition tool_message (text : string) : message := mk_message "tool" text None.

(** The [for (const tool of response.message.tool_calls)] loop (lines
    68-88), with [messages] threaded through; every value [lookup_function]
    returns is a function or an object, so [if (functionToCall)] holds
    exactly when it is [Some]. *)
Fixpoint process_tool_calls (reply : message) (calls : list tool_call)
    (messages : list message) : M (list message) :=
  match calls with
  | [] => js_ret messages
  | tool :: rest =>
      match lookup_function (call_name tool) with
      | Some f =>
          console_log [LStr "Calling function:"; LStr (call_name tool)] ;;
          console_log [LStr "Arguments:"; LValue (call_arguments tool)] ;;
          output <- js_of_sum (call_function f (call_arguments tool)) ;;
          console_log [LStr "Function output:"; LValue output] ;;
          text <- js_of_sum (call_toString output) ;;
          process_tool_calls reply rest (messages ++ [reply; tool_message text])
      | None =>
          console_log [LStr "Function"; LStr (call_name tool); LStr "not found"] ;;
          process_tool_calls reply rest messages
      end
  end.

Definition prompt : string := "What is three minus one?".

(** The first [ollama.chat] call (lines 58-62). *)
Definition initial_request (model : string) : chat_request :=
  mk_request model [user_message prompt] (Some [addTwoNumbersTool; subtractTwoNumbersTool]).

(** [run(model)] (lines 47-99) *)
Definition run (model : string) : M unit :=
  let messages := [user_message prompt] in
  console_log [LStr "Prompt:"; LStr (msg_content (user_message prompt))] ;;
  response <- ollama_chat (initial_request model) ;;
  console_log [LResponse response] ;;
  match msg_tool_calls (resp_message response) with
  | Some calls =>
      messages' <- process_tool_calls (resp_message response) calls messages ;;
      finalResponse <- ollama_chat (mk_request model messages' None) ;;
      console_log [LStr "Final response:"; LStr (msg_content (resp_message finalResponse))]
  | None => console_log [LStr "No tool calls returned from model"]
  end.

(** [run("qwen2.5:3b").catch(...)] (line 100) *)
Definition entry_point : M unit :=
  js_try (run "qwen2.5:3b") (fun e => console_error [LStr "An error occurred:"; LExn e]).
End Run.

(** ** What the loop computes, call by call *)

Section LoopSpec.
Context `{NumberConversions}.

(** One tool call on its own: [None] when the name does not resolve, else
    the handler's output printed by [toString()], or the error thrown. *)
Definition resolve_call (tool : tool_call) : option (exn + string) :=
  match lookup_function (call_name tool) with
  | None => None
  | Some f =>
      Some (match call_function f (call_arguments tool) with
            | inl e => inl e
            | inr out => call_toString out
            end)
  end.

(** The first call whose handler (or [toString()]) throws. *)
Fixpoint first_failure (calls : list tool_call) : option exn :=
  match calls with
  | [] => None
  | c :: rest => match resolve_call c with
                 | Some (inl e) => Some e
                 | _ => first_failure rest
                 end
  end.

(** The texts of the resolved calls, in call order. *)
Fixpoint resolved_outputs (calls : list tool_call) : list string :=
  match calls with
  | [] => []
  | c :: rest => match resolve_call c with
                 | Some (inr t) => t :: resolved_outputs rest
                 | _ => resolved_outputs rest
                 end
  end.

(** What the loop appends to [messages]: the reply and a tool message for
    every resolved call. *)
Definition tool_history (reply : message) (calls : list tool_call) : list message :=
  flat_map (fun t => [reply; tool_message t]) (resolved_outputs calls).

(** The second request of [run] when the loop returns normally. *)
Definition final_request (model : string) (reply : message) (calls : list tool_call) : chat_request :=
  mk_request model (user_message prompt :: tool_history reply calls) None.

(** Between two states the loop only appends to the console. *)
Definition console_extends (s s' : state) : Prop :=
  st_requests s' = st_requests s /\ exists l, st_console s' = st_console s ++ l.
End LoopSpec.

(** ** Scripted servers for the scenarios and witnesses *)

Definition number_args (a b : float) : value := VObject [("a", VNumber a); ("b", VNumber b)].

(** Spec scenario 1: the model asks for [subtractTwoNumbers(3, 1)]. *)
Definition call_subtract_3_1 : tool_call := mk_tool_call "subtractTwoNumbers" (number_args 3 1).
Definition call_add_3_1 : tool_call := mk_tool_call "addTwoNumbers" (number_args 3 1).

Definition tool_reply (calls : list tool_call) : message := mk_message "assistant" "" (Some calls).

(** A server that answers the first request (the one carrying tools) with
    [calls] and any later one with the text [answer]. *)
Definition scripted_server (calls : list tool_call) (answer : string) (req : chat_request)
  : exn + chat_response :=
  match req_tools req with
  | Some _ => inr (mk_response (tool_reply calls))
  | None => inr (mk_response (mk_message "assistant" answer None))
  end.

Definition plain_reply : message := mk_message "assistant" "I cannot do arithmetic." None.
Definition plain_server (_ : chat_request) : exn + chat_response := inr (mk_response plain_reply).

Definition fetch_failed : exn := mk_exn "TypeError" "fetch failed".
Definition down_server (_ : chat_request) : exn + chat_response := inl fetch_failed.

Section Theorems.
Context `{NumberConversions}.
Variable server : chat_request -> exn + chat_response.

Lemma console_extends_trans s1 s2 s3 :
  console_extends s1 s2 -> console_extends s2 s3 -> console_extends s1 s3.
Proof.
  intros [R1 [l1 C1]] [R2 [l2 C2]]. split; [congruence|].
  exists (l1 ++ l2). rewrite C2, C1, app_assoc. reflexivity.
Qed.

(** Closes [console_extends s s'] when [s'] is [s] with entries appended. *)
Ltac extends_solve :=
  split; [reflexivity | eexists; rewrite <- ?app_assoc;
                        first [reflexivity | symmetry; apply app_nil_r]].

(** The loop's outcome and its effect on the state, by induction on the calls. *)
Lemma process_tool_calls_run reply calls :
  forall msgs s,
    fst (process_tool_calls reply calls msgs s) =
      match first_failure calls with
      | Some e => inl e
      | None => inr (msgs ++ tool_history reply calls)
      end /\
    console_extends s (snd (process_tool_calls reply calls msgs s)).
Proof.
  unfold tool_history.
  induction calls as [|c rest IH]; intros msgs s;
    cbn [process_tool_calls first_failure resolved_outputs].
  - rewrite app_nil_r. split; [reflexivity | extends_solve].
  - unfold resolve_call. destruct (lookup_function (call_name c)) as [f|]; cbn.
    + destruct (call_function f (call_arguments c)) as [e|out]; cbn;
        [split; [reflexivity | extends_solve]|].
      destruct (call_toString out) as [e|t]; cbn; [split; [reflexivity | extends_solve]|].
      lazymatch goal with
      | |- context [process_tool_calls reply rest ?m ?st] => destruct (IH m st) as [R C]
      end.
      rewrite R, <- app_assoc. split; [reflexivity|].
      eapply console_extends_trans; [|exact C]. extends_solve.
    + lazymatch goal with
      | |- context [process_tool_calls reply rest ?m ?st] => destruct (IH m st) as [R C]
      end.
      split; [exact R|].
      eapply console_extends_trans; [|exact C]. extends_solve.
Qed.

(** C1: the tool-call loop runs the calls in order; it stops at the
    first call whose handler throws, and otherwise appends, for each
    call that resolves, the model's reply followed by a tool message with
    the output; it sends no request and only appends to the console. *)
Theorem process_tool_calls_correct reply calls :
  forall msgs s,
    fst (process_tool_calls reply calls msgs s) =
      match first_failure calls with
      | Some e => inl e
      | None => inr (msgs ++ tool_history reply calls)
      end /\
    console_extends s (snd (process_tool_calls reply calls msgs s)).
Proof. exact (process_tool_calls_run reply calls). Qed.

(** Run the loop inside a goal: its result and its effect on the state. *)
Ltac use_loop :=
  lazymatch goal with
  | |- context [process_tool_calls ?r ?c ?m ?st] =>
      let R := fresh "R" in
      let C := fresh "C" in
      destruct (process_tool_calls_run r c m st) as [R C];
      destruct (process_tool_calls r c m st) as [res st'] eqn:?; cbn in R, C
  end.

(** The tool path of [run] up to the second request. *)
Lemma run_with_calls model reply calls s :
  server (initial_request model) = inr (mk_response reply) ->
  msg_tool_calls reply = Some calls ->
  exists s1, st_requests s1 = st_requests s ++ [initial_request model] /\
    run server model s =
      match first_failure calls with
      | Some e => (inl e, s1)
      | None =>
          (finalResponse <- ollama_chat server (final_request model reply calls) ;;
           console_log [LStr "Final response:"; LStr (msg_content (resp_message finalResponse))]) s1
      end.
Proof.
  intros H1 Hc. unfold run, console_log. unfold ollama_chat at 1. js_run.
  rewrite H1. cbn. rewrite Hc. unfold js_bind at 1. use_loop.
  destruct C as [Creq _]. exists st'. cbn in Creq. split; [exact Creq|].
  rewrite R. destruct (first_failure calls); reflexivity.
Qed.

(** C2: when the model asks for tools and every resolved handler returns,
    [run] sends exactly two requests, the second with the user prompt
    followed by the loop's history and no tools, and it ends by printing
    the second reply. *)
Theorem run_tool_path model reply calls final s :
  server (initial_request model) = inr (mk_response reply) ->
  msg_tool_calls reply = Some calls ->
  first_failure calls = None ->
  server (final_request model reply calls) = inr final ->
  fst (run server model s) = inr tt /\
  st_requests (snd (run server model s)) =
    st_requests s ++ [initial_request model; final_request model reply calls] /\
  last (st_console (snd (run server model s))) =
    Some (ConsoleLog [LStr "Final response:"; LStr (msg_content (resp_message final))]).
Proof.
  intros H1 Hc Hf H2. destruct (run_with_calls model reply calls s H1 Hc) as (s1 & Q & ->).
  rewrite Hf. unfold ollama_chat, console_log. js_run. rewrite H2. unfold js_modify. cbn.
  rewrite Q, <- app_assoc, last_snoc. auto.
Qed.

(** C7: when the reply carries no [tool_calls] field, [run] sends one
    request and prints the prompt, the reply and the no-tool message. *)
Theorem run_no_tool_calls model reply s :
  server (initial_request model) = inr (mk_response reply) ->
  msg_tool_calls reply = None ->
  run server model s =
    (inr tt, mk_state (st_console s ++
                         [ConsoleLog [LStr "Prompt:"; LStr prompt];
                          ConsoleLog [LResponse (mk_response reply)];
                          ConsoleLog [LStr "No tool calls returned from model"]])
                      (st_requests s ++ [initial_request model])).
Proof.
  intros H1 Hc. unfold run, ollama_chat, console_log. js_run.
  rewrite H1. cbn. rewrite Hc. unfold js_modify. cbn. rewrite <- !app_assoc. reflexivity.
Qed.

(** C8: a transport error on the first request propagates out of [run]
    unchanged: no handler runs, nothing but the prompt is printed, and
    [entry_point] reports it with [console.error]. *)
Theorem entry_point_transport_error e s :
  server (initial_request "qwen2.5:3b") = inl e ->
  entry_point server s =
    (inr tt, mk_state (st_console s ++
                         [ConsoleLog [LStr "Prompt:"; LStr prompt];
                          ConsoleError [LStr "An error occurred:"; LExn e]])
                      (st_requests s ++ [initial_request "qwen2.5:3b"])).
Proof.
  intros H1. unfold entry_point, run, ollama_chat, console_log, console_error. js_run.
  rewrite H1. unfold js_modify. cbn. rewrite <- !app_assoc. reflexivity.
Qed.

(** C16: an empty [tool_calls] array is truthy in JS, so [run] still sends
    a second request, with the history unchanged, instead of taking the
    no-tool branch. *)
Theorem run_empty_tool_calls model reply final s :
  server (initial_request model) = inr (mk_response reply) ->
  msg_tool_calls reply = Some [] ->
  server (mk_request model [user_message prompt] None) = inr final ->
  fst (run server model s) = inr tt /\
  st_requests (snd (run server model s)) =
    st_requests s ++ [initial_request model; mk_request model [user_message prompt] None].
Proof.
  intros H1 Hc H2. destruct (run_with_calls model reply [] s H1 Hc) as (s1 & Q & ->).
  unfold ollama_chat, console_log, final_request, tool_history. js_run.
  cbn [resolved_outputs flat_map] in *. rewrite H2. unfold js_modify. cbn.
  rewrite Q, <- app_assoc. auto.
Qed.

(** C10: a tool call whose handler throws aborts [run] with that error:
    the second request is never sent. *)
Theorem run_handler_error model reply calls e s :
  server (initial_request model) = inr (mk_response reply) ->
  msg_tool_calls reply = Some calls ->
  first_failure calls = Some e ->
  fst (run server model s) = inl e /\
  st_requests (snd (run server model s)) = st_requests s ++ [initial_request model].
Proof.
  intros H1 Hc Hf. destruct (run_with_calls model reply calls s H1 Hc) as (s1 & Q & ->).
  rewrite Hf. auto.
Qed.

(** C17: [availableFunctions[name]] is [undefined] exactly for the names
    that are neither its own keys nor members of [Object.prototype]. *)
Theorem lookup_function_None name :
  lookup_function name = None <->
  ~ In name (map fst availableFunctions) /\ ~ In name (map fst object_prototype).
Proof.
  unfold lookup_function, proto_lookup.
  destruct (List.find _ availableFunctions) as [[k h]|] eqn:E.
  - split; [discriminate|]. intros [Hn _]. apply find_key_None in Hn. rewrite Hn in E. discriminate.
  - rewrite find_key_None in E. rewrite <- (find_key_None object_prototype).
    destruct (List.find _ object_prototype); cbn; split.
    + discriminate.
    + intros [_ F]. discriminate.
    + intros _. split; [exact E | reflexivity].
    + reflexivity.
Qed.

(** C18: a tool call named ["constructor"] is not reported as missing:
    the lookup reaches [Object], which returns the arguments object, and
    the tool message reads ["[object Object]"], or the call throws a
    [TypeError] at [output.toString()] when the arguments carry their own
    [toString] key; one named ["valueOf"] throws a [TypeError]. *)
Theorem resolve_inherited_names props :
  resolve_call (mk_tool_call "constructor" (VObject props)) =
    Some (if has_own props "toString" then inl (type_error "toString is not a function")
          else inr "[object Object]") /\
  resolve_call (mk_tool_call "valueOf" (VObject props)) =
    Some (inl (type_error "Cannot convert undefined or null to object")).
Proof.
  split; [|reflexivity]. unfold resolve_call. cbn.
  unfold object_to_primitive. destruct (has_own props "toString"); reflexivity.
Qed.

(** C19: with string arguments, as a model may send them, [addTwoNumbers]
    concatenates ([a + b] on strings) while [subtractTwoNumbers] converts
    both to numbers. *)
Theorem handlers_string_arguments props x y :
  own_property props "a" = Some (VString x) ->
  own_property props "b" = Some (VString y) ->
  addTwoNumbers (VObject props) = inr (VString (x ++ y)) /\
  subtractTwoNumbers (VObject props) =
    inr (VNumber (string_to_number x - string_to_number y)%float).
Proof. intros Ha Hb. unfold addTwoNumbers, subtractTwoNumbers. cbn. rewrite Ha, Hb. auto. Qed.

(** C20: with number arguments the handlers are IEEE-754 addition and
    subtraction; a missing argument reads as [undefined], which makes the
    result NaN rather than an error, for both handlers. *)
Theorem handlers_number_arguments props x y :
  own_property props "a" = Some (VNumber x) ->
  own_property props "b" = Some (VNumber y) ->
  addTwoNumbers (VObject props) = inr (VNumber (x + y)%float) /\
  subtractTwoNumbers (VObject props) = inr (VNumber (x - y)%float) /\
  addTwoNumbers (VObject []) = inr (VNumber (PrimFloat.nan + PrimFloat.nan)%float) /\
  subtractTwoNumbers (VObject []) = inr (VNumber (PrimFloat.nan - PrimFloat.nan)%float).
Proof. intros Ha Hb. unfold addTwoNumbers, subtractTwoNumbers. cbn. rewrite Ha, Hb. auto. Qed.
End Theorems.

(** ** Scenarios and witnesses, on integral number conversions *)

(** Spec scenario 1, run: the model asks for [subtractTwoNumbers] with
    [a = 3, b = 1]; the handler returns 2 and the second request carries
    the tool message ["2"]. *)
Example scenario_subtract_three_one :
  entry_point (scripted_server [call_subtract_3_1] "3 minus 1 is 2.") init_state =
    (inr tt, snd (entry_point (scripted_server [call_subtract_3_1] "3 minus 1 is 2.") init_state)) /\
  st_requests (snd (entry_point (scripted_server [call_subtract_3_1] "3 minus 1 is 2.") init_state)) =
    [initial_request "qwen2.5:3b";
     mk_request "qwen2.5:3b"
       [user_message prompt; tool_reply [call_subtract_3_1]; tool_message "2"] None].
Proof. split; vm_compute; reflexivity. Qed.


Lemma run_tool_path_witness :
  let srv := scripted_server [call_subtract_3_1] "2" in
  let fin := mk_response (mk_message "assistant" "2" None) in
  fst (run srv "m" init_state) = inr tt /\
  st_requests (snd (run srv "m" init_state)) =
    [initial_request "m"; final_request "m" (tool_reply [call_subtract_3_1]) [call_subtract_3_1]] /\
  last (st_console (snd (run srv "m" init_state))) =
    Some (ConsoleLog [LStr "Final response:"; LStr (msg_content (resp_message fin))]).
Proof.
  intros srv fin.
  exact (run_tool_path srv "m" (tool_reply [call_subtract_3_1]) [call_subtract_3_1] fin init_state
           eq_refl eq_refl eq_refl eq_refl).
Defined.

Lemma run_no_tool_calls_witness :
  run plain_server "m" init_state =
    (inr tt, mk_state ([] ++ [ConsoleLog [LStr "Prompt:"; LStr prompt];
                              ConsoleLog [LResponse (mk_response plain_reply)];
                              ConsoleLog [LStr "No tool calls returned from model"]])
                      ([] ++ [initial_request "m"])).
Proof. exact (run_no_tool_calls plain_server "m" plain_reply init_state eq_refl eq_refl). Defined.

Lemma entry_point_transport_error_witness :
  entry_point down_server init_state =
    (inr tt, mk_state ([] ++ [ConsoleLog [LStr "Prompt:"; LStr prompt];
                              ConsoleError [LStr "An error occurred:"; LExn fetch_failed]])
                      ([] ++ [initial_request "qwen2.5:3b"])).
Proof. exact (entry_point_transport_error down_server fetch_failed init_state eq_refl). Defined.

Lemma run_empty_tool_calls_witness :
  let srv := scripted_server [] "no tools needed" in
  fst (run srv "m" init_state) = inr tt /\
  st_requests (snd (run srv "m" init_state)) =
    [] ++ [initial_request "m"; mk_request "m" [user_message prompt] None].
Proof.
  intros srv.
  exact (run_empty_tool_calls srv "m" (tool_reply []) (mk_response (mk_message "assistant" "no tools needed" None))
           init_state eq_refl eq_refl eq_refl).
Defined.

Lemma run_handler_error_witness :
  let bad := mk_tool_call "valueOf" (number_args 3 1) in
  let srv := scripted_server [bad] "unreachable" in
  fst (run srv "m" init_state) = inl (type_error "Cannot convert undefined or null to object") /\
  st_requests (snd (run srv "m" init_state)) = [] ++ [initial_request "m"].
Proof.
  intros bad srv.
  exact (run_handler_error srv "m" (tool_reply [bad]) [bad] _ init_state eq_refl eq_refl eq_refl).
Defined.

Lemma handlers_string_arguments_witness :
  addTwoNumbers (VObject [("a", VString "3"); ("b", VString "1")]) = inr (VString ("3" ++ "1")) /\
  subtractTwoNumbers (VObject [("a", VString "3"); ("b", VString "1")]) =
    inr (VNumber (string_to_number "3" - string_to_number "1")%float).
Proof.
  exact (handlers_string_arguments [("a", VString "3"); ("b", VString "1")] "3" "1" eq_refl eq_refl).
Defined.

Lemma handlers_number_arguments_witness :
  addTwoNumbers (number_args 3 1) = inr (VNumber (3 + 1)%float) /\
  subtractTwoNumbers (number_args 3 1) = inr (VNumber (3 - 1)%float) /\
  addTwoNumbers (VObject []) = inr (VNumber (PrimFloat.nan + PrimFloat.nan)%float) /\
  subtractTwoNumbers (VObject []) = inr (VNumber (PrimFloat.nan - PrimFloat.nan)%float).
Proof. exact (handlers_number_arguments [("a", VNumber 3); ("b", VNumber 1)] 3 1 eq_refl eq_refl). Defined.

End Ollama.
