(* ===== verification/Langfuse.v ===== *)
(** * The Langfuse client as [src/index.ts] uses it

    The client is a library: every call the code makes ([langfuse.trace],
    [trace.span], [langfuse.span], [span.update], [span.end], [trace.update],
    [trace.event], [langfuse.shutdownAsync]) enqueues an ingestion event and
    never throws; identifiers are fresh (a counter stands for the UUIDs).
    The client's state is the queue of events and the next identifier.
    Theorems: the well-formedness invariant of the queue (identifiers
    created once, below the counter, and every reference to a created
    observation) and its preservation by every operation. *)

From S2P Require Import Prelude JsRuntime.

Local Open Scope list_scope.

Module Langfuse.

Inductive event : Type :=
| TraceCreate (id : nat) (name : string) (input metadata : value)
| TraceUpdate (id : nat) (body : list (string * value))
| SpanCreate (id : nat) (parent : option nat) (name : string) (input : value)
| SpanUpdate (id : nat) (body : list (string * value))
| SpanEnd (id : nat)
| EventCreate (id : nat) (parent : nat) (name : string) (input : value)
| Flush.

Record client := mk_client { lf_events : list event; lf_next_id : nat }.

Definition new_client : client := mk_client [] 0.

Definition push (e : event) (c : client) : client :=
  mk_client (lf_events c ++ [e]) (lf_next_id c).

Definition fresh (c : client) : nat * client :=
  (lf_next_id c, mk_client (lf_events c) (S (lf_next_id c))).

(** [langfuse.trace(body)] *)
Definition trace (name : string) (input metadata : value) (c : client) : nat * client :=
  let '(id, c1) := fresh c in (id, push (TraceCreate id name input metadata) c1).

(** [trace.span(body)] ([Some] trace) and [langfuse.span(body)] ([None]:
    the body names no trace). *)
Definition span (parent : option nat) (name : string) (input : value) (c : client) : nat * client :=
  let '(id, c1) := fresh c in (id, push (SpanCreate id parent name input) c1).

(** [trace.event(body)] *)
Definition event_of (parent : nat) (name : string) (input : value) (c : client) : client :=
  let '(id, c1) := fresh c in push (EventCreate id parent name input) c1.

Definition update_trace (id : nat) (body : list (string * value)) : client -> client :=
  push (TraceUpdate id body).
Definition update_span (id : nat) (body : list (string * value)) : client -> client :=
  push (SpanUpdate id body).
Definition end_span (id : nat) : client -> client := push (SpanEnd id).

(** [langfuse.shutdownAsync()]: flush the queue. *)
Definition shutdown : client -> client := push Flush.

(** ** The queue's invariant *)

Definition created_id (e : event) : list nat :=
  match e with
  | TraceCreate id _ _ _ | SpanCreate id _ _ _ | EventCreate id _ _ _ => [id]
  | _ => []
  end.

Definition referenced_ids (e : event) : list nat :=
  match e with
  | TraceUpdate id _ | SpanUpdate id _ | SpanEnd id => [id]
  | SpanCreate _ (Some p) _ _ | EventCreate _ p _ _ => [p]
  | _ => []
  end.

Definition created (evs : list event) : list nat := flat_map created_id evs.
Definition references (evs : list event) : list nat := flat_map referenced_ids evs.

(** Each observation is created once, under an identifier below the
    counter, and the queue only refers to observations it created. *)
Definition wf (c : client) : Prop :=
  NoDup (created (lf_events c)) /\
  Forall (fun i => i < lf_next_id c) (created (lf_events c)) /\
  incl (references (lf_events c)) (created (lf_events c)).

(** The spans a queue has opened and not ended. *)
Definition is_span_end (id : nat) (e : event) : bool :=
  match e with SpanEnd i => Nat.eqb i id | _ => false end.

Definition span_ids (evs : list event) : list nat :=
  flat_map (fun e => match e with SpanCreate id _ _ _ => [id] | _ => [] end) evs.

(** Every span of the queue is ended exactly once. *)
Definition spans_closed (evs : list event) : Prop :=
  Forall (fun id => length (List.filter (is_span_end id) evs) = 1) (span_ids evs).


(** ** Lemmas *)

Lemma created_app l1 l2 : created (l1 ++ l2) = created l1 ++ created l2.
Proof. apply flat_map_app. Qed.

Lemma references_app l1 l2 : references (l1 ++ l2) = references l1 ++ references l2.
Proof. apply flat_map_app. Qed.

#[local] Hint Rewrite created_app references_app : js_rw.

Lemma wf_new_client : wf new_client.
Proof. split; [constructor | split; [constructor | intros x []]]. Qed.

(** Pushing an event that creates nothing and refers to created ids. *)
Lemma wf_push_plain e c :
  created_id e = [] -> incl (referenced_ids e) (created (lf_events c)) -> wf c -> wf (push e c).
Proof.
  intros Hc Hr (N & B & I). unfold wf, push; cbn.
  autorewrite with js_rw. cbn. rewrite Hc, !app_nil_r.
  split; [exact N|]. split; [exact B|].
  intros x Hx. apply in_app_or in Hx as [Hx|Hx]; [exact (I x Hx)|].
  cbn in Hx. rewrite ?app_nil_r in Hx. exact (Hr x Hx).
Qed.

(** Pushing an event that creates the next identifier. *)
Lemma wf_push_fresh e c :
  created_id e = [lf_next_id c] -> incl (referenced_ids e) (created (lf_events c)) ->
  wf c -> wf (push e (snd (fresh c))).
Proof.
  intros Hc Hr (N & B & I). unfold wf, push, fresh; cbn.
  autorewrite with js_rw. cbn. rewrite Hc, app_nil_r. split; [|split].
  - apply NoDup_app. split; [exact N|]. split; [|apply NoDup_singleton].
    intros x Hx Hy. apply list_elem_of_singleton in Hy.
    subst x. eapply Forall_forall in B; [|exact Hx]. lia.
  - apply Forall_app. split; [|constructor; [lia|constructor]].
    eapply Forall_impl; [exact B|]. intros i Hi. cbn in Hi. lia.
  - intros x Hx. apply in_app_or in Hx as [Hx|Hx]; apply in_or_app; [left; exact (I x Hx)|].
    cbn in Hx. rewrite ?app_nil_r in Hx. left. exact (Hr x Hx).
Qed.

(** Every operation of the client preserves the queue's invariant,
    given that the identifiers it is passed name observations the queue
    created. *)
Theorem operations_preserve_wf c :
  wf c ->
  (forall name input metadata, wf (snd (trace name input metadata c))) /\
  (forall parent name input,
     (forall p, parent = Some p -> In p (created (lf_events c))) ->
     wf (snd (span parent name input c))) /\
  (forall parent name input, In parent (created (lf_events c)) -> wf (event_of parent name input c)) /\
  (forall id body, In id (created (lf_events c)) ->
     wf (update_trace id body c) /\ wf (update_span id body c) /\ wf (end_span id c)) /\
  wf (shutdown c).
Proof.
  intros W. split; [|split; [|split; [|split]]].
  - intros name input metadata. apply wf_push_fresh; [reflexivity | intros x [] | exact W].
  - intros parent name input Hp. apply wf_push_fresh; [reflexivity| |exact W].
    destruct parent as [p|]; cbn; [intros x [<-|[]]; auto | intros x []].
  - intros parent name input Hp. apply wf_push_fresh; [reflexivity| |exact W].
    intros x [<-|[]]. exact Hp.
  - intros id body Hi. split; [|split];
      apply wf_push_plain; solve [reflexivity | intros x [<-|[]]; exact Hi | exact W].
  - apply wf_push_plain; [reflexivity | intros x [] | exact W].
Qed.


Lemma operations_preserve_wf_witness :
  wf (snd (span (Some 0) "startChat" VNull (snd (trace "processQuery" VNull VNull new_client)))).
Proof.
  assert (W1 : wf (snd (trace "processQuery" VNull VNull new_client)))
    by exact (proj1 (operations_preserve_wf new_client wf_new_client) "processQuery" VNull VNull).
  apply (proj1 (proj2 (operations_preserve_wf _ W1)) (Some 0) "startChat" VNull).
  intros p Hp. injection Hp as <-. cbn. left. reflexivity.
Defined.

End Langfuse.
