(* ===== verification/Gemini.v ===== *)
(** * [src/index.ts]: the Gemini stock-price bot traced with Langfuse

    [stockPriceFunction], the mock [getStockPrice] with its standalone span,
    the [StockPriceBot] model configuration, [processQuery] (trace, spans,
    chat session, the loop that returns on the first ["getStockPrice"]
    call, the catch that records an error event and rethrows) and [main].
    The state holds the console, the Langfuse client and the requests sent
    to the model; the model ([generate]) and the clock ([now_iso]) are
    Section variables.  The Gemini SDK's chat session is modelled as the
    SDK documents it: [sendMessage] sends the history followed by the new
    user content and, when the reply has a candidate, appends both. *)

From S2P Require Import Prelude JsRuntime Langfuse.
From Stdlib Require Import Floats.

Local Open Scope string_scope.
Local Open Scope list_scope.
Local Open Scope js_scope.

Module Gemini.

(** ** The Gemini SDK's shapes *)

Record function_call := mk_function_call { fc_name : string; fc_args : value }.

Inductive part : Type :=
| PText (text : string)
| PFunctionResponse (name : string) (response : value).

Record content := mk_content { c_role : string; c_parts : list part }.

Record schema_property := mk_schema_property { sp_name : string; sp_type : string; sp_description : string }.

Record function_declaration := mk_function_declaration {
  fd_name : string;
  fd_description : string;
  fd_properties : list schema_property;
  fd_required : list string
}.

Record model_config := mk_model_config { mc_model : string; mc_tools : list function_declaration }.

Record gen_request := mk_gen_request { gq_config : model_config; gq_contents : list content }.

(** A reply: its JSON, its first candidate's content (none when blocked),
    [response.text()] and [response.functionCalls()] ([undefined] when
    there are none); both accessors throw on a blocked reply. *)
Record gen_response := mk_gen_response {
  gr_raw : value;
  gr_content : option content;
  gr_text : exn + string;
  gr_function_calls : exn + option (list function_call)
}.

Record session := mk_session { chat_config : model_config; chat_history : list content }.

(** The SDK's [formatNewContent]: the parts of one [sendMessage] become a
    ["user"] content, or a ["function"] content when they are all
    function responses; mixing the two, or sending nothing, throws. *)
Definition is_function_response (p : part) : bool :=
  match p with PFunctionResponse _ _ => true | PText _ => false end.

Definition sdk_error (msg : string) : exn :=
  mk_exn "GoogleGenerativeAIError" ("[GoogleGenerativeAI Error]: " ++ msg).

Definition format_new_content (parts : list part) : exn + content :=
  match List.filter (fun p => negb (is_function_response p)) parts,
        List.filter is_function_response parts with
  | _ :: _, _ :: _ =>
      inl (sdk_error ("Within a single message, FunctionResponse cannot be mixed with other type of part " ++
                      "in the request for sending chat message."))
  | [], [] => inl (sdk_error "No content is provided for sending chat message.")
  | (_ :: _) as user, [] => inr (mk_content "user" user)
  | [], (_ :: _) as fn => inr (mk_content "function" fn)
  end.

Inductive log_arg : Type := GStr (s : string) | GExn (e : exn).

Record state := mk_state {
  g_console : list (console_entry log_arg);
  g_langfuse : Langfuse.client;
  g_sent : list gen_request
}.

Definition init_state : state := mk_state [] Langfuse.new_client [].

Definition M := JS exn state.

Definition with_langfuse (s : state) (c : Langfuse.client) : state :=
  mk_state (g_console s) c (g_sent s).

(** ** Langfuse calls, console and the chat session inside [M] *)

Definition lf_trace (name : string) (input metadata : value) : M nat :=
  fun s => let '(id, c) := Langfuse.trace name input metadata (g_langfuse s) in (inr id, with_langfuse s c).

Definition lf_span (parent : option nat) (name : string) (input : value) : M nat :=
  fun s => let '(id, c) := Langfuse.span parent name input (g_langfuse s) in (inr id, with_langfuse s c).

Definition lf (f : Langfuse.client -> Langfuse.client) : M unit :=
  js_modify (fun s => with_langfuse s (f (g_langfuse s))).

Definition console_log (args : list log_arg) : M unit :=
  js_modify (fun s => mk_state (g_console s ++ [ConsoleLog args]) (g_langfuse s) (g_sent s)).

Definition console_error (args : list log_arg) : M unit :=
  js_modify (fun s => mk_state (g_console s ++ [ConsoleError args]) (g_langfuse s) (g_sent s)).

Definition start_chat (config : model_config) (history : list content) : session :=
  mk_session config history.

Section Program.
Context `{NumberConversions}.

(** The model behind the API and the clock. *)
Variable generate : gen_request -> exn + gen_response.
Variable now_iso : string.

(** [chat.sendMessage(request)]: the request is recorded as sent. *)
Definition send_message (chat : session) (parts : list part) : M (gen_response * session) :=
  new_content <- js_of_sum (format_new_content parts) ;;
  let req := mk_gen_request (chat_config chat) (chat_history chat ++ [new_content]) in
  js_modify (fun s => mk_state (g_console s) (g_langfuse s) (g_sent s ++ [req])) ;;
  response <- js_of_sum (generate req) ;;
  js_ret (response,
          match gr_content response with
          | Some c => mk_session (chat_config chat) (chat_history chat ++ [new_content; c])
          | None => chat
          end).

(** ** The program *)

(** [stockPriceFunction] (lines 19-32) *)
Definition stockPriceFunction : function_declaration :=
  mk_function_declaration "getStockPrice" "Get the current stock price for a given company symbol"
    [mk_schema_property "symbol" "string" "The stock symbol (e.g., AAPL for Apple)"] ["symbol"].

(** The [StockPriceBot] constructor's model (lines 64-70). *)
Definition bot_config : model_config := mk_model_config "gemini-2.0-flash" [stockPriceFunction].

Definition stock_price : float := 150.25%float.

(** [getStockPrice({ symbol })] (lines 34-58): a span that names no trace;
    on success its output is recorded and it is ended; on a throw it is
    marked as an error, ended, and the error rethrown. *)
Definition stock_result (sym : value) : value :=
  VObject [("symbol", sym); ("price", VNumber stock_price);
           ("currency", VString "USD"); ("timestamp", VString now_iso)].

Definition getStockPrice (symbol : value) : M value :=
  span <- lf_span None "getStockPrice" (VObject [("symbol", symbol)]) ;;
  js_try
    (sym <- js_of_sum (call_toUpperCase symbol) ;;
     let result := stock_result sym in
     lf (Langfuse.update_span span [("output", result)]) ;;
     lf (Langfuse.end_span span) ;;
     js_ret result)
    (fun e =>
       lf (Langfuse.update_span span [("level", VString "ERROR");
                                      ("statusMessage", VString (error_message e))]) ;;
       lf (Langfuse.end_span span) ;;
       js_throw e).

(** [!!functionCalls] *)
Definition is_Some_bool {A} (o : option A) : bool := match o with Some _ => true | None => false end.

Definition function_calls_value (fcs : list function_call) : value :=
  VArray (map (fun fc => VObject [("name", VString (fc_name fc)); ("args", fc_args fc)]) fcs).

Definition is_stock_call (fc : function_call) : bool := String.eqb (fc_name fc) "getStockPrice".

(** The body of the [if (functionCall.name === "getStockPrice")] branch
    (lines 117-150), ending in [return finalResponse]. *)
Definition handle_stock_call (trace : nat) (chat : session) (fc : function_call) : M string :=
  lf (Langfuse.event_of trace "functionCallDetected"
        (VObject [("functionName", VString "getStockPrice"); ("args", fc_args fc)])) ;;
  symbol <- js_of_sum (get_member (fc_args fc) "symbol") ;;
  stockData <- getStockPrice symbol ;;
  responseSpan <- lf_span (Some trace) "sendFunctionResponse"
    (VObject [("functionResponse", VObject [("name", VString "getStockPrice"); ("response", stockData)])]) ;;
  functionResponse <- send_message chat [PFunctionResponse "getStockPrice" stockData] ;;
  finalResponse <- js_of_sum (gr_text (fst functionResponse)) ;;
  lf (Langfuse.update_span responseSpan [("output", VObject [("response", VString finalResponse)])]) ;;
  lf (Langfuse.end_span responseSpan) ;;
  lf (Langfuse.update_trace trace [("output", VObject [("finalResponse", VString finalResponse)])]) ;;
  js_ret finalResponse.

(** The [for (const functionCall of functionCalls)] loop (lines 116-151):
    [Some text] is the early [return finalResponse]. *)
Fixpoint stock_loop (trace : nat) (chat : session) (fcs : list function_call) : M (option string) :=
  match fcs with
  | [] => js_ret None
  | fc :: rest =>
      if is_stock_call fc then
        finalResponse <- handle_stock_call trace chat fc ;;
        js_ret (Some finalResponse)
      else stock_loop trace chat rest
  end.

(** [StockPriceBot.processQuery(userQuery)] (lines 71-166) *)
Definition processQuery (userQuery : string) : M string :=
  trace <- lf_trace "processQuery" (VObject [("query", VString userQuery)])
             (VObject [("environment", VString "development")]) ;;
  js_try
    (chatSpan <- lf_span (Some trace) "startChat" (VObject [("history", VArray [])]) ;;
     let chat := start_chat bot_config [] in
     lf (Langfuse.update_span chatSpan [("output", VObject [("chatSessionStarted", VBool true)])]) ;;
     lf (Langfuse.end_span chatSpan) ;;
     sendMessageSpan <- lf_span (Some trace) "sendMessage" (VObject [("message", VString userQuery)]) ;;
     result <- send_message chat [PText userQuery] ;;
     let response := fst result in
     let chat := snd result in
     functionCalls <- js_of_sum (gr_function_calls response) ;;
     responseText <- js_of_sum (gr_text response) ;;
     lf (Langfuse.update_span sendMessageSpan
           [("output", VObject [("rawResponse", gr_raw response);
                                ("responseText", VString responseText);
                                ("hasFunctionCalls", VBool (is_Some_bool functionCalls));
                                ("functionCalls", match functionCalls with
                                                  | Some fcs => function_calls_value fcs
                                                  | None => VArray []
                                                  end)])]) ;;
     lf (Langfuse.end_span sendMessageSpan) ;;
     early <- match functionCalls with
              | Some fcs =>
                  if (0 <? length fcs)%nat then
                    lf (Langfuse.update_trace trace
                          [("metadata", VObject [("functionCallsDetected",
                                                  VNumber (float_of_Z (Z.of_nat (length fcs))))])]) ;;
                    stock_loop trace chat fcs
                  else js_ret None
              | None => js_ret None
              end ;;
     match early with
     | Some finalResponse => js_ret finalResponse
     | None =>
         textResponse <- js_of_sum (gr_text response) ;;
         lf (Langfuse.update_trace trace [("output", VObject [("response", VString textResponse)])]) ;;
         js_ret textResponse
     end)
    (fun e =>
       lf (Langfuse.event_of trace "error" (VObject [("error", VString (error_message e))])) ;;
       js_throw e).

Definition newline : string := String (Ascii.ascii_of_nat 10) EmptyString.
Definition dquote : string := String (Ascii.ascii_of_nat 34) EmptyString.

(** One iteration of [main]'s loop (lines 175-181). *)
Definition main_query (query : string) : M unit :=
  js_try
    (response <- processQuery query ;;
     console_log [GStr ("Query: " ++ query)] ;;
     console_log [GStr ("Response: " ++ response ++ newline)])
    (fun e => console_error [GStr ("Error for query " ++ dquote ++ query ++ dquote ++ ":"); GExn e]).

Definition queries : list string := ["What's the current stock price of Apple?"].

(** [main()] (lines 169-186) *)
Definition main : M unit :=
  fold_right (fun q k => main_query q ;; k) (js_ret tt) queries ;;
  lf Langfuse.shutdown.

(** ** The same program without tracing: the reference it refines

    Over a state that only records the requests sent; the loop is
    replaced by its specification: the first ["getStockPrice"] call, if
    any, is handled. *)

Definition R := JS exn (list gen_request).

Definition send_ref (chat : session) (parts : list part) : R (gen_response * session) :=
  new_content <- js_of_sum (format_new_content parts) ;;
  let req := mk_gen_request (chat_config chat) (chat_history chat ++ [new_content]) in
  js_modify (fun l => l ++ [req]) ;;
  response <- js_of_sum (generate req) ;;
  js_ret (response,
          match gr_content response with
          | Some c => mk_session (chat_config chat) (chat_history chat ++ [new_content; c])
          | None => chat
          end).

Definition getStockPrice_ref (symbol : value) : R value :=
  sym <- js_of_sum (call_toUpperCase symbol) ;;
  js_ret (stock_result sym).

Definition handle_ref (chat : session) (fc : function_call) : R string :=
  symbol <- js_of_sum (get_member (fc_args fc) "symbol") ;;
  stockData <- getStockPrice_ref symbol ;;
  functionResponse <- send_ref chat [PFunctionResponse "getStockPrice" stockData] ;;
  js_of_sum (gr_text (fst functionResponse)).

Definition first_stock_call (fcs : option (list function_call)) : option function_call :=
  match fcs with Some l => List.find is_stock_call l | None => None end.

Definition processQuery_ref (userQuery : string) : R string :=
  result <- send_ref (start_chat bot_config []) [PText userQuery] ;;
  functionCalls <- js_of_sum (gr_function_calls (fst result)) ;;
  _ <- js_of_sum (gr_text (fst result)) ;;
  match first_stock_call functionCalls with
  | Some fc => handle_ref (snd result) fc
  | None => js_of_sum (gr_text (fst result))
  end.

(** The requests [processQuery] sends: the query, then the function
    response after the history the session kept. *)
Definition first_request (userQuery : string) : gen_request :=
  mk_gen_request bot_config [mk_content "user" [PText userQuery]].

Definition history_after (userQuery : string) (response : gen_response) : list content :=
  match gr_content response with
  | Some c => [mk_content "user" [PText userQuery]; c]
  | None => []
  end.

Definition second_request (userQuery : string) (response : gen_response) (stockData : value) : gen_request :=
  mk_gen_request bot_config
    (history_after userQuery response ++ [mk_content "function" [PFunctionResponse "getStockPrice" stockData]]).

(** [m] behaves as [m'] once the Langfuse client is forgotten: same
    outcome, same requests, and the console untouched. *)
Definition erases {A} (m : M A) (m' : R A) : Prop :=
  forall s, fst (m s) = fst (m' (g_sent s)) /\
            g_sent (snd (m s)) = snd (m' (g_sent s)) /\
            g_console (snd (m s)) = g_console s.

End Program.

(** ** Scripted models for the scenarios and witnesses *)

Definition apple_query : string := "What's the current stock price of Apple?".
Definition clock : string := "2026-11-09T00:00:00.000Z".

Definition stock_call (sym : string) : function_call :=
  mk_function_call "getStockPrice" (VObject [("symbol", VString sym)]).

Definition call_reply (fcs : list function_call) : gen_response :=
  mk_gen_response VNull (Some (mk_content "model" [])) (inr "") (inr (Some fcs)).

Definition text_reply (t : string) : gen_response :=
  mk_gen_response VNull (Some (mk_content "model" [PText t])) (inr t) (inr None).

(** Asks for [fcs] when the last content is the user's text, answers
    [answer] to anything else. *)
Definition scripted_model (fcs : list function_call) (answer : string) (r : gen_request)
  : exn + gen_response :=
  match rev (gq_contents r) with
  | mk_content _ [PText _] :: _ => inr (call_reply fcs)
  | _ => inr (text_reply answer)
  end.

Definition text_model (answer : string) (_ : gen_request) : exn + gen_response := inr (text_reply answer).

Definition fetch_failed : exn := mk_exn "Error" "fetch failed".
Definition offline_model (_ : gen_request) : exn + gen_response := inl fetch_failed.

Definition missing_symbol_call : function_call := mk_function_call "getStockPrice" (VObject []).

Section Erasure.
Variable generate : gen_request -> exn + gen_response.
Variable now_iso : string.

Lemma erases_ret {A} (a : A) : erases (js_ret a) (js_ret a).
Proof. intros s. repeat split. Qed.

Lemma erases_throw {A} (e : exn) : @erases A (js_throw e) (js_throw e).
Proof. intros s. repeat split. Qed.

Lemma erases_of_sum {A} (r : exn + A) : erases (js_of_sum r) (js_of_sum r).
Proof. destruct r; [apply erases_throw | apply erases_ret]. Qed.

Lemma erases_bind {A B} (m : M A) m' (k : A -> M B) k' :
  erases m m' -> (forall a, erases (k a) (k' a)) -> erases (js_bind m k) (js_bind m' k').
Proof.
  intros Hm Hk s. destruct (Hm s) as (R1 & S1 & C1). unfold js_bind.
  destruct (m s) as [[e|a] s1], (m' (g_sent s)) as [[e'|a'] l1]; cbn in *; subst; try discriminate.
  - injection R1 as ->. auto.
  - injection R1 as ->. destruct (Hk a' s1) as (R2 & S2 & C2). rewrite C2. auto.
Qed.

(** [x <- m ;; k x] against [m] alone, when the continuation only traces. *)
Lemma erases_bind_r {A} (m : M A) (m' : R A) (k : A -> M A) :
  erases m m' -> (forall a, erases (k a) (js_ret a)) -> erases (js_bind m k) m'.
Proof.
  intros Hm Hk s. destruct (Hm s) as (R1 & S1 & C1).
  unfold js_bind. destruct (m s) as [[e|a] s1]; cbn in *; [auto|].
  destruct (Hk a s1) as (R2 & S2 & C2). cbn in *. rewrite R2, S2, C2, R1, S1. auto.
Qed.

Lemma erases_lf_l {A} f (k : M A) m' : erases k m' -> erases (js_bind (lf f) (fun _ => k)) m'.
Proof. intros Hk s. exact (Hk _). Qed.

Lemma erases_span_l {A} p n i (k : nat -> M A) m' :
  (forall id, erases (k id) m') -> erases (js_bind (lf_span p n i) k) m'.
Proof. intros Hk s. unfold js_bind, lf_span. destruct (Langfuse.span _ _ _ _). apply (Hk _ (with_langfuse s _)). Qed.

Lemma erases_trace_l {A} n i md (k : nat -> M A) m' :
  (forall id, erases (k id) m') -> erases (js_bind (lf_trace n i md) k) m'.
Proof. intros Hk s. unfold js_bind, lf_trace. destruct (Langfuse.trace _ _ _ _). apply (Hk _ (with_langfuse s _)). Qed.

Lemma erases_try {A} (m : M A) m' h h' :
  erases m m' -> (forall e, erases (h e) (h' e)) -> erases (js_try m h) (js_try m' h').
Proof.
  intros Hm Hh s. destruct (Hm s) as (R1 & S1 & C1). unfold js_try.
  destruct (m s) as [[e|a] s1], (m' (g_sent s)) as [[e'|a'] l1]; cbn in *; subst; try discriminate.
  - injection R1 as ->. destruct (Hh e' s1) as (R2 & S2 & C2). rewrite C2. auto.
  - auto.
Qed.

(** A handler that only traces and rethrows can be dropped. *)
Lemma erases_try_rethrow {A} (m : M A) m' h :
  erases m m' -> (forall e, erases (h e) (js_throw e)) -> erases (js_try m h) m'.
Proof.
  intros Hm Hh s. destruct (Hm s) as (R1 & S1 & C1). unfold js_try.
  destruct (m s) as [[e|a] s1]; cbn in *; [|auto].
  destruct (Hh e s1) as (R2 & S2 & C2). cbn in *. rewrite R2, S2, C2, R1, S1. auto.
Qed.

Lemma erases_send chat parts : erases (send_message generate chat parts) (send_ref generate chat parts).
Proof.
  intros s. unfold send_message, send_ref. cbn.
  destruct (format_new_content parts); cbn; [auto|]. destruct (generate _); cbn; auto.
Qed.

Lemma erases_ext {A} (m1 m2 : M A) m' : (forall s, m1 s = m2 s) -> erases m2 m' -> erases m1 m'.
Proof. intros E H s. rewrite E. apply H. Qed.

End Erasure.

Create HintDb erasure discriminated.
#[export] Hint Resolve erases_ret erases_throw erases_of_sum erases_send : erasure.

(** One step of the erasure proof: peel tracing on the left, match binds. *)
Ltac erase_step :=
  first
    [ solve [auto with erasure]
    | apply erases_lf_l
    | apply erases_span_l; intro
    | apply erases_trace_l; intro
    | apply erases_try_rethrow; [|intro]
    | apply erases_bind; [|intro]
    | lazymatch goal with
      | |- erases _ (js_of_sum _) => apply erases_bind_r; [|intro]
      end ].

Section ErasureProgram.
Variable generate : gen_request -> exn + gen_response.
Variable now_iso : string.

Lemma erases_getStockPrice symbol :
  erases (getStockPrice now_iso symbol) (getStockPrice_ref now_iso symbol).
Proof. unfold getStockPrice, getStockPrice_ref. cbv zeta. repeat erase_step. Qed.

#[local] Hint Resolve erases_getStockPrice : erasure.

Lemma erases_handle trace chat fc :
  erases (handle_stock_call generate now_iso trace chat fc) (handle_ref generate now_iso chat fc).
Proof. unfold handle_stock_call, handle_ref. repeat erase_step. Qed.

Lemma erases_stock_loop trace chat fcs (K : M string) K' :
  erases K K' ->
  erases (x <- stock_loop generate now_iso trace chat fcs ;;
          match x with Some f => js_ret f | None => K end)
         (match List.find is_stock_call fcs with Some fc => handle_ref generate now_iso chat fc | None => K' end).
Proof.
  intros HK. induction fcs as [|fc rest IH]; cbn [stock_loop List.find]; [exact HK|].
  destruct (is_stock_call fc); [|exact IH].
  eapply erases_ext; [intros s; apply js_bind_assoc|].
  apply erases_bind_r; [apply erases_handle | intros a; apply erases_ret].
Qed.
Lemma erases_processQuery q :
  erases (processQuery generate now_iso q) (processQuery_ref generate now_iso q).
Proof.
  unfold processQuery, processQuery_ref. cbv zeta.
  apply erases_trace_l; intros tr.
  apply erases_try_rethrow; [|intros e; repeat erase_step].
  repeat erase_step.
  lazymatch goal with
  | |- erases _ (match first_stock_call ?fcs with _ => _ end) => destruct fcs as [[|fc rest]|]
  end.
  - cbn [first_stock_call List.find length Nat.ltb Nat.leb]. rewrite js_bind_ret_l. cbv beta iota.
    repeat erase_step.
  - cbn [first_stock_call length Nat.ltb Nat.leb].
    eapply erases_ext; [intros s; apply js_bind_assoc|]. apply erases_lf_l.
    apply erases_stock_loop. repeat erase_step.
  - cbn [first_stock_call]. rewrite js_bind_ret_l. cbv beta iota. repeat erase_step.
Qed.
End ErasureProgram.

Section Theorems.
Variable generate : gen_request -> exn + gen_response.
Variable now_iso : string.

(** Unfold the Langfuse client's operations as [M] sees them. *)
Ltac lf_unfold :=
  unfold lf_trace, lf_span, lf, with_langfuse, Langfuse.trace, Langfuse.span, Langfuse.event_of,
    Langfuse.update_span, Langfuse.update_trace, Langfuse.end_span, Langfuse.push, Langfuse.fresh,
    Langfuse.shutdown.

(** C3: tracing never changes what [processQuery] returns or sends: it
    refines the untraced reference on every path, errors included, and
    leaves the console alone. *)
Theorem processQuery_refines q s :
  fst (processQuery generate now_iso q s) = fst (processQuery_ref generate now_iso q (g_sent s)) /\
  g_sent (snd (processQuery generate now_iso q s)) = snd (processQuery_ref generate now_iso q (g_sent s)) /\
  g_console (snd (processQuery generate now_iso q s)) = g_console s.
Proof. exact (erases_processQuery generate now_iso q s). Qed.

(** The loop is the handler applied to the first match of [find]. *)
Lemma stock_loop_find_eq trace chat fcs :
  stock_loop generate now_iso trace chat fcs =
    match List.find is_stock_call fcs with
    | Some fc => js_bind (handle_stock_call generate now_iso trace chat fc) (fun f => js_ret (Some f))
    | None => js_ret None
    end.
Proof.
  induction fcs as [|fc rest IH]; cbn; [reflexivity|].
  destruct (is_stock_call fc); [reflexivity | exact IH].
Qed.

(** C4: the loop returns at the first ["getStockPrice"] call: whatever
    calls follow it in the reply are never looked at. *)
Theorem stock_loop_ignores_rest trace chat pre fc post :
  is_stock_call fc = true ->
  stock_loop generate now_iso trace chat (pre ++ fc :: post) =
  stock_loop generate now_iso trace chat (pre ++ [fc]).
Proof.
  intros Hfc. rewrite !stock_loop_find_eq.
  induction pre as [|x pre IH]; cbn; [rewrite Hfc; reflexivity|].
  destruct (is_stock_call x); [reflexivity | exact IH].
Qed.

(** Rewrite [processQuery] to its reference and run the reference. *)
Ltac to_reference q s :=
  destruct (erases_processQuery generate now_iso q s) as (Rf & Sf & _);
  rewrite Rf, Sf; unfold processQuery_ref, send_ref, first_request in *;
  cbv [js_bind js_ret js_modify js_of_sum js_throw]; cbn.

(** C6: when the reply has no ["getStockPrice"] call (no calls at all, or
    only calls to other names), [processQuery] returns the reply's text
    after one request: calls to unknown tools are neither run nor
    answered. *)
Theorem processQuery_no_stock_call q response fcs t s :
  generate (first_request q) = inr response ->
  gr_function_calls response = inr fcs ->
  first_stock_call fcs = None ->
  gr_text response = inr t ->
  fst (processQuery generate now_iso q s) = inr t /\
  g_sent (snd (processQuery generate now_iso q s)) = g_sent s ++ [first_request q].
Proof.
  intros H1 H2 H3 H4. to_reference q s. rewrite H1. cbn. rewrite H2. cbn. rewrite H4. cbn. rewrite H3. cbn. auto.
Qed.

(** C5: on the first ["getStockPrice"] call with a string symbol,
    [processQuery] sends the mock quote (symbol upper-cased) back after the
    history the session kept, and returns the model's second text. *)
Theorem processQuery_stock_call q response fcs fc sym final t0 t s :
  generate (first_request q) = inr response ->
  gr_function_calls response = inr fcs ->
  gr_text response = inr t0 ->
  first_stock_call fcs = Some fc ->
  get_member (fc_args fc) "symbol" = inr (VString sym) ->
  generate (second_request q response (stock_result now_iso (VString (to_upper sym)))) = inr final ->
  gr_text final = inr t ->
  fst (processQuery generate now_iso q s) = inr t /\
  g_sent (snd (processQuery generate now_iso q s)) =
    g_sent s ++ [first_request q; second_request q response (stock_result now_iso (VString (to_upper sym)))].
Proof.
  intros H1 H2 H3 H4 H5 H6 H7. to_reference q s. rewrite H1. cbn. rewrite H2. cbn. rewrite H3. cbn.
  rewrite H4. unfold handle_ref, getStockPrice_ref, send_ref.
  cbv [js_bind js_ret js_modify js_of_sum js_throw]. cbn. rewrite H5. cbn.
  unfold second_request, history_after in *. destruct (gr_content response); cbn in *;
    rewrite H6; cbn; rewrite H7; cbn; rewrite <- app_assoc; auto.
Qed.

(** C11: a failure of the handler (a missing or non-string [symbol] makes
    [toUpperCase] throw) is not turned into a tool result: it propagates
    out of [processQuery], after the first request only. *)
Theorem processQuery_handler_error q response fcs fc v e t0 s :
  generate (first_request q) = inr response ->
  gr_function_calls response = inr fcs ->
  gr_text response = inr t0 ->
  first_stock_call fcs = Some fc ->
  get_member (fc_args fc) "symbol" = inr v ->
  call_toUpperCase v = inl e ->
  fst (processQuery generate now_iso q s) = inl e /\
  g_sent (snd (processQuery generate now_iso q s)) = g_sent s ++ [first_request q].
Proof.
  intros H1 H2 H3 H4 H5 H6. to_reference q s. rewrite H1. cbn. rewrite H2. cbn. rewrite H3. cbn.
  rewrite H4. unfold handle_ref, getStockPrice_ref.
  cbv [js_bind js_ret js_modify js_of_sum js_throw]. cbn. rewrite H5. cbn. rewrite H6. auto.
Qed.

(** C9: a transport error on the first request propagates out of
    [processQuery] after recording an error event; the ["sendMessage"]
    span opened before the call is left without an end. *)
Theorem processQuery_transport_error q e s :
  generate (first_request q) = inl e ->
  let n := Langfuse.lf_next_id (g_langfuse s) in
  processQuery generate now_iso q s =
    (inl e,
     mk_state (g_console s)
       (Langfuse.mk_client
          (Langfuse.lf_events (g_langfuse s) ++
           [Langfuse.TraceCreate n "processQuery" (VObject [("query", VString q)])
              (VObject [("environment", VString "development")]);
            Langfuse.SpanCreate (S n) (Some n) "startChat" (VObject [("history", VArray [])]);
            Langfuse.SpanUpdate (S n) [("output", VObject [("chatSessionStarted", VBool true)])];
            Langfuse.SpanEnd (S n);
            Langfuse.SpanCreate (S (S n)) (Some n) "sendMessage" (VObject [("message", VString q)]);
            Langfuse.EventCreate (S (S (S n))) n "error" (VObject [("error", VString (error_message e))])])
          (S (S (S (S n)))))
       (g_sent s ++ [first_request q])).
Proof.
  intros H n. unfold processQuery, send_message. lf_unfold.
  cbv [js_try js_bind js_modify js_ret js_of_sum js_throw]. cbn.
  unfold first_request in H. rewrite H. cbn. rewrite <- !app_assoc. reflexivity.
Qed.

(** C13: with a string symbol, [getStockPrice] returns the static quote
    with the symbol upper-cased and the clock's timestamp, and records a
    span that names no trace, its output, and its end. *)
Theorem getStockPrice_string sym s :
  let n := Langfuse.lf_next_id (g_langfuse s) in
  getStockPrice now_iso (VString sym) s =
    (inr (stock_result now_iso (VString (to_upper sym))),
     with_langfuse s
       (Langfuse.mk_client
          (Langfuse.lf_events (g_langfuse s) ++
           [Langfuse.SpanCreate n None "getStockPrice" (VObject [("symbol", VString sym)]);
            Langfuse.SpanUpdate n [("output", stock_result now_iso (VString (to_upper sym)))];
            Langfuse.SpanEnd n])
          (S n))).
Proof.
  intros n. unfold getStockPrice. lf_unfold. cbn. rewrite <- !app_assoc. reflexivity.
Qed.

(** C14: when [toUpperCase] throws (the symbol is missing or not a string),
    [getStockPrice] marks its span as an error, ends it, and rethrows. *)
Theorem getStockPrice_error v e s :
  call_toUpperCase v = inl e ->
  let n := Langfuse.lf_next_id (g_langfuse s) in
  getStockPrice now_iso v s =
    (inl e,
     with_langfuse s
       (Langfuse.mk_client
          (Langfuse.lf_events (g_langfuse s) ++
           [Langfuse.SpanCreate n None "getStockPrice" (VObject [("symbol", v)]);
            Langfuse.SpanUpdate n [("level", VString "ERROR"); ("statusMessage", VString (error_message e))];
            Langfuse.SpanEnd n])
          (S n))).
Proof.
  intros H n. unfold getStockPrice. lf_unfold. cbn. rewrite H. cbn. rewrite <- !app_assoc. reflexivity.
Qed.



(** C15: [main] always completes: it prints the query and the answer, or
    reports the error of [processQuery] with [console.error], and in both
    cases flushes Langfuse last. *)
Theorem main_completes :
  let q := "What's the current stock price of Apple?" in
  fst (main generate now_iso init_state) = inr tt /\
  last (Langfuse.lf_events (g_langfuse (snd (main generate now_iso init_state)))) = Some Langfuse.Flush /\
  g_console (snd (main generate now_iso init_state)) =
    match fst (processQuery generate now_iso q init_state) with
    | inr r => [ConsoleLog [GStr ("Query: " ++ q)]; ConsoleLog [GStr ("Response: " ++ r ++ newline)]]
    | inl e => [ConsoleError [GStr ("Error for query " ++ dquote ++ q ++ dquote ++ ":"); GExn e]]
    end.
Proof.
  intros q. destruct (erases_processQuery generate now_iso q init_state) as (_ & _ & C).
  unfold main, main_query. cbn [fold_right queries].
  cbv [js_try js_bind js_modify js_ret lf console_log console_error with_langfuse].
  fold q. destruct (processQuery generate now_iso q init_state) as [[e|r] s1]; cbn in C |- *;
    rewrite C; unfold Langfuse.shutdown, Langfuse.push; cbn; rewrite last_snoc; auto.
Qed.
End Theorems.

(** ** Scenarios and witnesses *)

(** Spec scenario 2, run: the model asks for [getStockPrice] with symbol
    ["aapl"]; the quote sent back carries ["AAPL"], 150.25 and ["USD"],
    and the model's answer is printed. *)
Example scenario_apple_quote :
  let gen := scripted_model [stock_call "aapl"] "AAPL trades at 150.25 USD." in
  g_sent (snd (main gen clock init_state)) =
    [first_request apple_query;
     second_request apple_query (call_reply [stock_call "aapl"]) (stock_result clock (VString "AAPL"))] /\
  g_console (snd (main gen clock init_state)) =
    [ConsoleLog [GStr ("Query: " ++ apple_query)];
     ConsoleLog [GStr ("Response: AAPL trades at 150.25 USD." ++ newline)]].
Proof. split; vm_compute; reflexivity. Qed.


Lemma stock_loop_ignores_rest_witness :
  stock_loop offline_model clock 0 (start_chat bot_config []) ([] ++ stock_call "aapl" :: [stock_call "msft"]) =
  stock_loop offline_model clock 0 (start_chat bot_config []) ([] ++ [stock_call "aapl"]).
Proof. apply (stock_loop_ignores_rest offline_model clock 0 _ [] (stock_call "aapl") [stock_call "msft"]). reflexivity. Defined.

Lemma processQuery_no_stock_call_witness :
  fst (processQuery (text_model "Hi") clock apple_query init_state) = inr "Hi" /\
  g_sent (snd (processQuery (text_model "Hi") clock apple_query init_state)) = [] ++ [first_request apple_query].
Proof.
  apply (processQuery_no_stock_call (text_model "Hi") clock apple_query (text_reply "Hi") None "Hi" init_state);
    reflexivity.
Defined.

Lemma processQuery_stock_call_witness :
  let gen := scripted_model [stock_call "aapl"] "150.25" in
  fst (processQuery gen clock apple_query init_state) = inr "150.25" /\
  g_sent (snd (processQuery gen clock apple_query init_state)) =
    [] ++ [first_request apple_query;
           second_request apple_query (call_reply [stock_call "aapl"]) (stock_result clock (VString (to_upper "aapl")))].
Proof.
  intros gen.
  apply (processQuery_stock_call gen clock apple_query (call_reply [stock_call "aapl"]) (Some [stock_call "aapl"])
           (stock_call "aapl")
           "aapl" (text_reply "150.25") "" "150.25" init_state); vm_compute; reflexivity.
Defined.

Lemma processQuery_handler_error_witness :
  let gen := scripted_model [missing_symbol_call] "unreachable" in
  fst (processQuery gen clock apple_query init_state) =
    inl (type_error "Cannot read properties of undefined (reading 'toUpperCase')") /\
  g_sent (snd (processQuery gen clock apple_query init_state)) = [] ++ [first_request apple_query].
Proof.
  intros gen.
  apply (processQuery_handler_error gen clock apple_query (call_reply [missing_symbol_call])
           (Some [missing_symbol_call]) missing_symbol_call
           VUndefined _ "" init_state); vm_compute; reflexivity.
Defined.

Lemma processQuery_transport_error_witness :
  processQuery offline_model clock apple_query init_state =
    (inl fetch_failed,
     mk_state []
       (Langfuse.mk_client
          ([] ++
           [Langfuse.TraceCreate 0 "processQuery" (VObject [("query", VString apple_query)])
              (VObject [("environment", VString "development")]);
            Langfuse.SpanCreate 1 (Some 0) "startChat" (VObject [("history", VArray [])]);
            Langfuse.SpanUpdate 1 [("output", VObject [("chatSessionStarted", VBool true)])];
            Langfuse.SpanEnd 1;
            Langfuse.SpanCreate 2 (Some 0) "sendMessage" (VObject [("message", VString apple_query)]);
            Langfuse.EventCreate 3 0 "error" (VObject [("error", VString (error_message fetch_failed))])])
          4)
       ([] ++ [first_request apple_query])).
Proof. apply (processQuery_transport_error offline_model clock apple_query fetch_failed init_state). reflexivity. Defined.

Lemma getStockPrice_error_witness :
  getStockPrice clock VUndefined init_state =
    (inl (type_error "Cannot read properties of undefined (reading 'toUpperCase')"),
     with_langfuse init_state
       (Langfuse.mk_client
          ([] ++
           [Langfuse.SpanCreate 0 None "getStockPrice" (VObject [("symbol", VUndefined)]);
            Langfuse.SpanUpdate 0 [("level", VString "ERROR");
                                   ("statusMessage", VString "Cannot read properties of undefined (reading 'toUpperCase')")];
            Langfuse.SpanEnd 0])
          1)).
Proof.
  apply (getStockPrice_error clock VUndefined
           (type_error "Cannot read properties of undefined (reading 'toUpperCase')") init_state).
  reflexivity.
Defined.



End Gemini.
