(* ===== verification/Spec.v ===== *)
(** * The spec's Tool-Call Resolution Loop, and the Ollama loop against it

    Section 4.3 of the spec resolves every call of a batch in order: an
    unknown name gives a failed result "tool not found", a handler failure
    a failed result with its message, a success its output; each result
    is appended as a ["tool"] message after the model's reply.  This file
    states that loop over any resolver and handler invocation
    ([batch_history]), instantiates it with the Ollama script's lookup and
    handlers, and characterises exactly when [process_tool_calls] produces
    the history the spec asks for. *)

From S2P Require Import Prelude JsRuntime Ollama.

Local Open Scope string_scope.
Local Open Scope list_scope.

Module Spec.
Import Ollama.Ollama.

Inductive tool_result : Type :=
| Succeeded (output : string)
| Failed (message : string).

Definition result_content (r : tool_result) : string :=
  match r with Succeeded o => o | Failed m => m end.

Section ResolutionLoop.
Context {Handler : Type}.
Variable resolve : string -> option Handler.
Variable invoke : Handler -> value -> exn + string.

(** Steps 4a and 4b: one call. *)
Definition resolve_spec (c : tool_call) : tool_result :=
  match resolve (call_name c) with
  | None => Failed "tool not found"
  | Some h => match invoke h (call_arguments c) with
              | inl e => Failed (error_message e)
              | inr out => Succeeded out
              end
  end.

(** Step 4c over a batch: the reply, then one tool message per call, in
    the order the calls were returned. *)
Definition batch_history (reply : message) (calls : list tool_call) : list message :=
  reply :: map (fun c => tool_message (result_content (resolve_spec c))) calls.
End ResolutionLoop.

(** The Ollama script's resolver and handler invocation. *)
Definition ollama_invoke `{NumberConversions} (f : fn_ref) (args : value) : exn + string :=
  match call_function f args with
  | inl e => inl e
  | inr out => call_toString out
  end.

Definition ollama_batch_history `{NumberConversions} : message -> list tool_call -> list message :=
  batch_history lookup_function ollama_invoke.

Section Agreement.
Context `{NumberConversions}.

Lemma resolve_spec_ollama c :
  resolve_spec lookup_function ollama_invoke c =
    match resolve_call c with
    | None => Failed "tool not found"
    | Some (inl e) => Failed (error_message e)
    | Some (inr t) => Succeeded t
    end.
Proof.
  unfold resolve_spec, resolve_call, ollama_invoke.
  destruct (lookup_function (call_name c)); [|reflexivity].
  destruct (call_function _ _); [reflexivity|]. destruct (call_toString _); reflexivity.
Qed.

Lemma tool_message_not_reply reply t :
  msg_tool_calls reply <> None -> tool_message t <> reply.
Proof. intros Hr E. apply Hr. rewrite <- E. reflexivity. Qed.

(** A history in which the reply is repeated before every result has the
    shape "reply, then tool messages" only when it holds one result. *)
Lemma flat_map_reply_shape reply (xs : list string) (ys : list message) :
  msg_tool_calls reply <> None ->
  Forall (fun m => msg_tool_calls m = None) ys ->
  flat_map (fun t => [reply; tool_message t]) xs = reply :: ys ->
  exists x, xs = [x] /\ ys = [tool_message x].
Proof.
  intros Hr Hy E. destruct xs as [|x [|x2 xs]]; cbn in E; [discriminate| |].
  - injection E as <-. eauto.
  - injection E as <-. inversion Hy as [|? ? _ Hy']. inversion Hy'. contradiction.
Qed.

(** The lists the code and the spec build agree only on a batch of one
    call that resolves and succeeds, when the reply carries the calls. *)
Lemma tool_history_batch_history reply calls :
  msg_tool_calls reply <> None ->
  tool_history reply calls = ollama_batch_history reply calls <->
  exists c t, calls = [c] /\ resolve_call c = Some (inr t).
Proof.
  intros Hr. unfold tool_history, ollama_batch_history, batch_history. split.
  - intros E. apply flat_map_reply_shape in E as (x & Hx & Hm); [|exact Hr|].
    + destruct calls as [|c [|c' rest]]; cbn in Hm; try discriminate.
      exists c, x. split; [reflexivity|]. cbn in Hx.
      destruct (resolve_call c) as [[e|t]|]; cbn in Hx; congruence.
    + clear E. induction calls as [|c rest IH]; cbn; constructor; [reflexivity | exact IH].
  - intros (c & t & -> & Hc). cbn. rewrite resolve_spec_ollama, Hc. reflexivity.
Qed.

(** C22: the Ollama loop builds the history spec section 4.3 asks for
    exactly when the batch is a single call that resolves and succeeds;
    with two resolved calls it repeats the reply, with an unknown name it
    appends nothing where the spec appends "tool not found", and a
    handler error aborts it where the spec records a failed result. *)
Theorem process_tool_calls_refines_spec_iff reply calls msgs s :
  msg_tool_calls reply <> None ->
  fst (process_tool_calls reply calls msgs s) = inr (msgs ++ ollama_batch_history reply calls) <->
  exists c t, calls = [c] /\ resolve_call c = Some (inr t).
Proof.
  intros Hr. destruct (process_tool_calls_run reply calls msgs s) as [R _]. rewrite R.
  rewrite <- (tool_history_batch_history reply calls Hr).
  destruct (first_failure calls) as [e|] eqn:F.
  - split; [discriminate|]. intros E. apply (tool_history_batch_history reply calls Hr) in E.
    destruct E as (c & t & -> & Hc). cbn in F. rewrite Hc in F. discriminate.
  - split; [intros E; injection E as E; exact (app_inv_head _ _ _ E) | intros ->; reflexivity].
Qed.
End Agreement.

Lemma process_tool_calls_refines_spec_iff_witness :
  let reply := tool_reply [call_subtract_3_1] in
  msg_tool_calls reply <> None /\
  (fst (process_tool_calls reply [call_subtract_3_1] [user_message prompt] init_state) =
     inr ([user_message prompt] ++ ollama_batch_history reply [call_subtract_3_1]) <->
   exists c t, [call_subtract_3_1] = [c] /\ resolve_call c = Some (inr t)).
Proof.
  intros reply. split; [discriminate|].
  apply (process_tool_calls_refines_spec_iff reply [call_subtract_3_1] [user_message prompt] init_state).
  discriminate.
Defined.

End Spec.
