(* ===== verification/Tracing.v ===== *)
(** * Span discipline of [src/index.ts]: which Langfuse spans stay open

    A Hoare logic over [Gemini.M] for the Langfuse queue: [triple K O m Q]
    says that from any state whose queue is well-formed, has created the
    identifiers [K], ends no span twice and has exactly the open spans [O]
    (identifier and name, in the order they were opened), running [m]
    ends, whether it returns or throws, in such a state with open spans
    [O'] for which [Q (outcome) O'] holds.  The rules are stated in
    weakest-precondition form (the postcondition of [m] in [x <- m ;; k]
    is the triple of [k]), one per monadic construct and per Langfuse
    call; opening a span extends [O] and hands its fresh identifier to the
    continuation, ending it removes it.  The theorem: [processQuery] closes
    every span it opens when it returns, and when it throws leaves at
    most the one span around the model call that failed. *)

From S2P Require Import Prelude JsRuntime Langfuse Gemini.

Local Open Scope list_scope.

Module Tracing.
Import Gemini.Gemini.

(** ** Open spans of a queue *)

Definition events (s : state) : list Langfuse.event := Langfuse.lf_events (g_langfuse s).

Definition known (s : state) : list nat := Langfuse.created (events s).

(** Whether the queue ends span [id]. *)
Definition ended (evs : list Langfuse.event) (id : nat) : bool := existsb (Langfuse.is_span_end id) evs.

Definition opened_in (all : list Langfuse.event) (e : Langfuse.event) : list (nat * string) :=
  match e with
  | Langfuse.SpanCreate id _ name _ => if ended all id then [] else [(id, name)]
  | _ => []
  end.

(** The spans the queue opened and has not ended, with their names. *)
Definition open_spans (evs : list Langfuse.event) : list (nat * string) := flat_map (opened_in evs) evs.

(** No span is ended twice. *)
Definition ends_once (evs : list Langfuse.event) : Prop :=
  Forall (fun id => length (List.filter (Langfuse.is_span_end id) evs) <= 1) (Langfuse.span_ids evs).

Definition span_inv (K : list nat) (O : list (nat * string)) (s : state) : Prop :=
  Langfuse.wf (g_langfuse s) /\ incl K (known s) /\ ends_once (events s) /\ open_spans (events s) = O.

Definition triple {A} (K : list nat) (O : list (nat * string)) (m : M A)
    (Q : exn + A -> list (nat * string) -> Prop) : Prop :=
  forall s, span_inv K O s -> exists O', span_inv K O' (snd (m s)) /\ Q (fst (m s)) O'.

(** What a query may leave open: nothing more than it found when it
    returns; when it throws, possibly the span of the model call that
    failed. *)
Definition query_post {A} (O : list (nat * string)) (r : exn + A) (O' : list (nat * string)) : Prop :=
  match r with
  | inr _ => O' = O
  | inl _ => O' = O \/ exists id, O' = O ++ [(id, "sendMessage")] \/ O' = O ++ [(id, "sendFunctionResponse")]
  end.

(** ** The queue after one more event *)

Lemma events_push e c : Langfuse.lf_events (Langfuse.push e c) = Langfuse.lf_events c ++ [e].
Proof. reflexivity. Qed.

Lemma created_push e c :
  Langfuse.created (Langfuse.lf_events (Langfuse.push e c)) =
    Langfuse.created (Langfuse.lf_events c) ++ Langfuse.created_id e.
Proof. rewrite events_push, Langfuse.created_app. cbn. rewrite app_nil_r. reflexivity. Qed.

Lemma incl_app_l_same {T} (K l r : list T) : incl K l -> incl K (l ++ r).
Proof. intros H x Hx. apply in_or_app. left. exact (H x Hx). Qed.

Lemma ended_snoc evs e id : ended (evs ++ [e]) id = ended evs id || Langfuse.is_span_end id e.
Proof. unfold ended. rewrite existsb_app. cbn. rewrite orb_false_r. reflexivity. Qed.

Lemma opened_in_snoc evs e l :
  flat_map (opened_in (evs ++ [e])) l =
    List.filter (fun p => negb (Langfuse.is_span_end (fst p) e)) (flat_map (opened_in evs) l).
Proof.
  induction l as [|x l IH]; [reflexivity|]. cbn [flat_map]. rewrite List.filter_app, IH. f_equal.
  destruct x; try reflexivity. cbn [opened_in]. rewrite ended_snoc.
  destruct (ended evs id), (Langfuse.is_span_end id e) eqn:E; cbn; rewrite ?E; reflexivity.
Qed.

Lemma open_spans_snoc evs e :
  open_spans (evs ++ [e]) =
    List.filter (fun p => negb (Langfuse.is_span_end (fst p) e)) (open_spans evs) ++ opened_in (evs ++ [e]) e.
Proof. unfold open_spans at 1. rewrite flat_map_app, opened_in_snoc. cbn. rewrite app_nil_r. reflexivity. Qed.

Lemma filter_not_end e (O : list (nat * string)) :
  (forall j, Langfuse.is_span_end j e = false) ->
  List.filter (fun p => negb (Langfuse.is_span_end (fst p) e)) O = O.
Proof. intros H. induction O as [|p O IH]; cbn; [reflexivity|]. rewrite H, IH. reflexivity. Qed.

Lemma filter_other_id id (O : list (nat * string)) :
  ~ In id (map fst O) -> List.filter (fun p => negb (Nat.eqb id (fst p))) O = O.
Proof.
  intros H. induction O as [|[i n] O IH]; cbn in *; [reflexivity|].
  destruct (Nat.eqb_spec id i); [subst; tauto|]. rewrite IH; tauto.
Qed.

Lemma filter_not_ended evs id : ended evs id = false -> List.filter (Langfuse.is_span_end id) evs = [].
Proof.
  unfold ended. induction evs as [|e evs IH]; cbn; [reflexivity|].
  intros H. apply orb_false_iff in H as [H1 H2]. rewrite H1. exact (IH H2).
Qed.

(** An open span was created by the queue and has no end in it. *)
Lemma open_spans_created evs id n :
  In (id, n) (open_spans evs) -> In id (Langfuse.created evs) /\ ended evs id = false.
Proof.
  unfold open_spans. intros H. apply in_flat_map in H as (e & He & Hin).
  destruct e as [| |i p nm inp| | | |]; cbn in Hin; try contradiction.
  destruct (ended evs i) eqn:E; [contradiction|]. destruct Hin as [[= <- <-]|[]].
  split; [|exact E]. apply in_flat_map. exists (Langfuse.SpanCreate i p nm inp). split; [exact He | left; reflexivity].
Qed.

(** The next identifier names nothing the queue holds yet. *)
Lemma next_not_created c : Langfuse.wf c -> ~ In (Langfuse.lf_next_id c) (Langfuse.created (Langfuse.lf_events c)).
Proof. intros (_ & B & _) H. rewrite List.Forall_forall in B. specialize (B _ H). cbn in B. lia. Qed.

Lemma ended_next c : Langfuse.wf c -> ended (Langfuse.lf_events c) (Langfuse.lf_next_id c) = false.
Proof.
  intros W. destruct (ended _ _) eqn:E; [exfalso|reflexivity].
  apply existsb_exists in E as (e & He & Hend).
  destruct e as [| | | |i| |]; cbn in Hend; try discriminate. apply Nat.eqb_eq in Hend. subst i.
  apply (next_not_created c W). destruct W as (_ & _ & I). apply I.
  apply in_flat_map. exists (Langfuse.SpanEnd (Langfuse.lf_next_id c)). split; [exact He | left; reflexivity].
Qed.

Lemma ends_once_snoc evs e :
  ends_once evs ->
  (forall j, Langfuse.is_span_end j e = true -> ended evs j = false) ->
  (forall id, In id (Langfuse.span_ids [e]) -> ended evs id = false /\ Langfuse.is_span_end id e = false) ->
  ends_once (evs ++ [e]).
Proof.
  intros H He Hn. unfold ends_once in *. unfold Langfuse.span_ids at 1. rewrite flat_map_app.
  apply Forall_app. split.
  - eapply List.Forall_impl; [|exact H]. intros id Hid. cbn beta in Hid |- *.
    rewrite List.filter_app, length_app. cbn. destruct (Langfuse.is_span_end id e) eqn:E; cbn; [|lia].
    rewrite (filter_not_ended _ _ (He id E)). cbn. lia.
  - apply List.Forall_forall. intros id Hid. destruct (Hn id Hid) as [N1 N2].
    rewrite List.filter_app, length_app, (filter_not_ended _ _ N1). cbn. rewrite N2. cbn. lia.
Qed.

(** What a created observation adds to the open spans. *)
Definition fresh_open (e : Langfuse.event) : list (nat * string) :=
  match e with Langfuse.SpanCreate id _ name _ => [(id, name)] | _ => [] end.

Lemma opened_in_fresh evs e id :
  Langfuse.created_id e = [id] -> ended evs id = false -> opened_in (evs ++ [e]) e = fresh_open e.
Proof.
  intros Hc Hend. destruct e; try reflexivity. cbn in Hc. injection Hc as ->.
  cbn. rewrite ended_snoc, Hend. reflexivity.
Qed.

(** ** The invariant after each kind of Langfuse call *)

Lemma span_inv_weaken id K O s : span_inv (id :: K) O s -> span_inv K O s.
Proof.
  intros (W & I & E & Op). split; [exact W|]. split; [|split; [exact E | exact Op]].
  intros x Hx. apply I. right. exact Hx.
Qed.

Lemma span_inv_fresh K O s :
  span_inv K O s -> ~ In (Langfuse.lf_next_id (g_langfuse s)) K /\
                    ~ In (Langfuse.lf_next_id (g_langfuse s)) (map fst O).
Proof.
  intros (W & I & E & Op). split.
  - intros H. exact (next_not_created _ W (I _ H)).
  - intros H. apply in_map_iff in H as ([i n] & Hi & Hin). cbn in Hi. subst i.
    rewrite <- Op in Hin. exact (next_not_created _ W (proj1 (open_spans_created _ _ _ Hin))).
Qed.

(** An event that creates nothing, ends nothing and refers to known
    observations. *)
Lemma span_inv_push_plain K O e s :
  Langfuse.created_id e = [] -> incl (Langfuse.referenced_ids e) K ->
  (forall j, Langfuse.is_span_end j e = false) -> Langfuse.span_ids [e] = [] ->
  span_inv K O s -> span_inv K O (with_langfuse s (Langfuse.push e (g_langfuse s))).
Proof.
  intros Hc Hr Hj Hsp (W & I & E & Op). unfold span_inv, known, events, with_langfuse in *. cbn [g_langfuse].
  split; [exact (Langfuse.wf_push_plain e _ Hc (incl_tran Hr I) W)|].
  split; [rewrite created_push; exact (incl_app_l_same _ _ _ I)|].
  rewrite events_push. split.
  - apply ends_once_snoc; [exact E | intros j Hj'; rewrite Hj in Hj'; discriminate | rewrite Hsp; intros _ []].
  - rewrite open_spans_snoc, filter_not_end, Op by exact Hj.
    destruct e; cbn [opened_in] in *; rewrite ?app_nil_r; try reflexivity; discriminate.
Qed.

(** An event that creates the next identifier. *)
Lemma span_inv_push_fresh K O e s :
  Langfuse.created_id e = [Langfuse.lf_next_id (g_langfuse s)] -> incl (Langfuse.referenced_ids e) K ->
  (forall j, Langfuse.is_span_end j e = false) -> span_inv K O s ->
  span_inv (Langfuse.lf_next_id (g_langfuse s) :: K) (O ++ fresh_open e)
    (with_langfuse s (Langfuse.push e (snd (Langfuse.fresh (g_langfuse s))))).
Proof.
  intros Hc Hr Hj (W & I & E & Op). pose proof (ended_next _ W) as Hn.
  unfold span_inv, known, events, with_langfuse in *. cbn [g_langfuse].
  split; [exact (Langfuse.wf_push_fresh e _ Hc (incl_tran Hr I) W)|].
  split; [|rewrite events_push; cbn [Langfuse.fresh snd Langfuse.lf_events]; split].
  - rewrite created_push, Hc. intros x [<-|Hx]; apply in_or_app; [right; left; reflexivity | left; exact (I x Hx)].
  - apply ends_once_snoc; [exact E | intros j Hj'; rewrite Hj in Hj'; discriminate|].
    intros id Hid. destruct e; cbn in Hid, Hc; try contradiction. destruct Hid as [<-|[]].
    injection Hc as ->. split; [exact Hn | apply Hj].
  - rewrite open_spans_snoc, filter_not_end, Op by exact Hj. f_equal. exact (opened_in_fresh _ _ _ Hc Hn).
Qed.

(** ** The rules *)

Lemma triple_consequence {A} K O (m : M A) Q1 Q :
  triple K O m Q1 -> (forall r O', Q1 r O' -> Q r O') -> triple K O m Q.
Proof. intros H HQ s Hs. destruct (H s Hs) as (O' & H' & Q'). eauto. Qed.

Lemma triple_ret {A} K O (a : A) Q : Q (inr a) O -> triple K O (js_ret a) Q.
Proof. intros HQ s Hs. exists O. auto. Qed.

Lemma triple_throw {A} K O e Q : Q (inl e) O -> @triple A K O (js_throw e) Q.
Proof. intros HQ s Hs. exists O. auto. Qed.

Lemma triple_of_sum {A} K O (r : exn + A) Q : Q r O -> triple K O (js_of_sum r) Q.
Proof. destruct r; [apply triple_throw | apply triple_ret]. Qed.

(** [x <- m ;; k x]: the continuation's triple is the postcondition of
    [m] on a value, the outer postcondition on an exception. *)
Lemma triple_bind {A B} K O (m : M A) (k : A -> M B) Q :
  triple K O m (fun r O1 => match r with inr a => triple K O1 (k a) Q | inl e => Q (inl e) O1 end) ->
  triple K O (js_bind m k) Q.
Proof.
  intros Hm s Hs. destruct (Hm s Hs) as (O1 & H1 & HQ1). unfold js_bind.
  destruct (m s) as [[e|a] s1]; cbn in *; [eauto | exact (HQ1 s1 H1)].
Qed.

(** [try { m } catch (e) { h e }] *)
Lemma triple_try {A} K O (m : M A) h Q :
  triple K O m (fun r O1 => match r with inr a => Q (inr a) O1 | inl e => triple K O1 (h e) Q end) ->
  triple K O (js_try m h) Q.
Proof.
  intros Hm s Hs. destruct (Hm s Hs) as (O1 & H1 & HQ1). unfold js_try.
  destruct (m s) as [[e|a] s1]; cbn in *; [exact (HQ1 s1 H1) | eauto].
Qed.

(** A state change that leaves the Langfuse client alone. *)
Lemma triple_modify K O f Q :
  (forall s, g_langfuse (f s) = g_langfuse s) -> Q (inr tt) O -> triple K O (js_modify f) Q.
Proof. intros E HQ s Hs. exists O. split; [|exact HQ]. unfold span_inv, known, events in *. cbn. rewrite E. exact Hs. Qed.

Lemma triple_console_log K O args Q : Q (inr tt) O -> triple K O (console_log args) Q.
Proof. apply triple_modify. reflexivity. Qed.

Lemma triple_console_error K O args Q : Q (inr tt) O -> triple K O (console_error args) Q.
Proof. apply triple_modify. reflexivity. Qed.

(** [chat.sendMessage(...)], whatever the model answers. *)
Lemma triple_send generate K O chat parts Q : (forall r, Q r O) -> triple K O (send_message generate chat parts) Q.
Proof.
  intros HQ. unfold send_message. apply triple_bind, triple_of_sum.
  destruct (format_new_content parts) as [e|c]; [apply HQ|]. cbv zeta beta iota.
  apply triple_bind, triple_modify; [reflexivity|]. cbv beta iota.
  apply triple_bind, triple_of_sum. destruct (generate _); [apply HQ | apply triple_ret, HQ].
Qed.

Lemma triple_lf_plain K O e Q :
  Langfuse.created_id e = [] -> incl (Langfuse.referenced_ids e) K ->
  (forall j, Langfuse.is_span_end j e = false) -> Langfuse.span_ids [e] = [] ->
  Q (inr tt) O -> triple K O (lf (Langfuse.push e)) Q.
Proof. intros Hc Hr Hj Hsp HQ s Hs. exists O. split; [exact (span_inv_push_plain K O e s Hc Hr Hj Hsp Hs) | exact HQ]. Qed.

Lemma triple_update_span K O id body Q : In id K -> Q (inr tt) O -> triple K O (lf (Langfuse.update_span id body)) Q.
Proof. intros H. apply triple_lf_plain; try reflexivity. intros x [<-|[]]. exact H. Qed.

Lemma triple_update_trace K O id body Q : In id K -> Q (inr tt) O -> triple K O (lf (Langfuse.update_trace id body)) Q.
Proof. intros H. apply triple_lf_plain; try reflexivity. intros x [<-|[]]. exact H. Qed.

Lemma triple_shutdown K O Q : Q (inr tt) O -> triple K O (lf Langfuse.shutdown) Q.
Proof. apply triple_lf_plain; try reflexivity. intros x []. Qed.

(** [span.end()] on the span opened last. *)
Lemma triple_end_span K O id n Q :
  In id K -> ~ In id (map fst O) -> Q (inr tt) O -> triple K (O ++ [(id, n)]) (lf (Langfuse.end_span id)) Q.
Proof.
  intros HK Hn HQ s (W & I & E & Op). exists O. split; [|exact HQ].
  assert (Ho : In (id, n) (open_spans (events s))) by (rewrite Op; apply in_or_app; right; left; reflexivity).
  destruct (open_spans_created _ _ _ Ho) as [_ Hend].
  unfold lf, js_modify, span_inv, known, events, with_langfuse, Langfuse.end_span in *. cbn [snd g_langfuse].
  split; [apply Langfuse.wf_push_plain; [reflexivity | intros x [<-|[]]; exact (I _ HK) | exact W]|].
  split; [rewrite created_push; exact (incl_app_l_same _ _ _ I)|].
  rewrite events_push. split.
  - apply ends_once_snoc; [exact E | | intros _ []].
    intros j Hj. cbn in Hj. apply Nat.eqb_eq in Hj. subst j. exact Hend.
  - rewrite open_spans_snoc, Op. cbn [opened_in]. rewrite app_nil_r, List.filter_app. cbn.
    rewrite Nat.eqb_refl. cbn. rewrite app_nil_r. exact (filter_other_id _ _ Hn).
Qed.

(** [trace.event(...)] *)
Lemma triple_event K O p n i Q : In p K -> Q (inr tt) O -> triple K O (lf (Langfuse.event_of p n i)) Q.
Proof.
  intros Hp HQ s Hs. exists O. split; [|exact HQ].
  pose proof (span_inv_push_fresh K O (Langfuse.EventCreate (Langfuse.lf_next_id (g_langfuse s)) p n i) s
                eq_refl) as H.
  specialize (H ltac:(intros x [<-|[]]; exact Hp) (fun _ => eq_refl) Hs).
  cbn [fresh_open] in H. rewrite app_nil_r in H. exact (span_inv_weaken _ _ _ _ H).
Qed.

(** [trace.span(...)] / [langfuse.span(...)] followed by the code that
    holds the span: it runs with the span open, under a fresh
    identifier. *)
Lemma triple_span_bind {A} K O p n i (k : nat -> M A) Q :
  (forall q, p = Some q -> In q K) ->
  (forall id, ~ In id K -> ~ In id (map fst O) -> triple (id :: K) (O ++ [(id, n)]) (k id) Q) ->
  triple K O (js_bind (lf_span p n i) k) Q.
Proof.
  intros Hp Hk s Hs. destruct (span_inv_fresh K O s Hs) as [F1 F2].
  pose proof (span_inv_push_fresh K O (Langfuse.SpanCreate (Langfuse.lf_next_id (g_langfuse s)) p n i) s eq_refl)
    as H. cbn [fresh_open] in H.
  assert (Hr : incl (Langfuse.referenced_ids (Langfuse.SpanCreate (Langfuse.lf_next_id (g_langfuse s)) p n i)) K)
    by (destruct p as [q|]; [intros x [<-|[]]; exact (Hp q eq_refl) | intros x []]).
  destruct (Hk _ F1 F2 _ (H Hr (fun _ => eq_refl) Hs)) as (O' & H' & HQ).
  exists O'. split; [exact (span_inv_weaken _ _ _ _ H') | exact HQ].
Qed.

(** [langfuse.trace(...)] followed by the code that holds the trace. *)
Lemma triple_trace_bind {A} K O n i md (k : nat -> M A) Q :
  (forall id, ~ In id K -> triple (id :: K) O (k id) Q) ->
  triple K O (js_bind (lf_trace n i md) k) Q.
Proof.
  intros Hk s Hs. destruct (span_inv_fresh K O s Hs) as [F1 _].
  pose proof (span_inv_push_fresh K O (Langfuse.TraceCreate (Langfuse.lf_next_id (g_langfuse s)) n i md) s
                eq_refl ltac:(intros x []) (fun _ => eq_refl) Hs) as H.
  cbn [fresh_open] in H. rewrite app_nil_r in H.
  destruct (Hk _ F1 _ H) as (O' & H' & HQ).
  exists O'. split; [exact (span_inv_weaken _ _ _ _ H') | exact HQ].
Qed.

Create HintDb tracing discriminated.
#[export] Hint Resolve in_eq in_cons : tracing.

(** One step of a [triple] proof: reduce the postcondition a rule left,
    introduce what it quantifies, split on the value a [match] inspects,
    or apply the rule of the construct at the head of the program. *)
Ltac tstep :=
  first
    [ progress cbv beta iota
    | lazymatch goal with
      | |- forall _, _ => intro
      | |- match ?x with _ => _ end => destruct x
      | |- triple _ _ (match ?x with _ => _ end) _ => destruct x
      | |- triple _ _ (js_bind (lf_span _ _ _) _) _ =>
          apply triple_span_bind; [intros ? Hq; inversion Hq; subst; eauto with tracing | intros ? ? ?]
      | |- triple _ _ (js_bind (lf_trace _ _ _) _) _ => apply triple_trace_bind; intros ? ?
      | |- triple _ _ (js_bind _ _) _ => apply triple_bind
      | |- triple _ _ (js_try _ _) _ => apply triple_try
      | |- triple _ _ (js_ret _) _ => apply triple_ret
      | |- triple _ _ (js_throw _) _ => apply triple_throw
      | |- triple _ _ (js_of_sum _) _ => apply triple_of_sum
      | |- triple _ _ (send_message _ _ _) _ => apply triple_send
      | |- triple _ _ (console_log _) _ => apply triple_console_log
      | |- triple _ _ (console_error _) _ => apply triple_console_error
      | |- triple _ _ (lf (Langfuse.update_span _ _)) _ => apply triple_update_span; [eauto with tracing|]
      | |- triple _ _ (lf (Langfuse.update_trace _ _)) _ => apply triple_update_trace; [eauto with tracing|]
      | |- triple _ _ (lf (Langfuse.end_span _)) _ => apply triple_end_span; [eauto with tracing | assumption |]
      | |- triple _ _ (lf (Langfuse.event_of _ _ _)) _ => apply triple_event; [eauto with tracing|]
      | |- triple _ _ (lf Langfuse.shutdown) _ => apply triple_shutdown
      end ].

(** ** What the program leaves open *)

Section Program.
Variable generate : gen_request -> exn + gen_response.
Variable now_iso : string.

(** [getStockPrice] ends its span on both paths. *)
Lemma getStockPrice_triple K O symbol Q : (forall r, Q r O) -> triple K O (getStockPrice now_iso symbol) Q.
Proof. intros HQ. unfold getStockPrice. repeat tstep; auto. Qed.

(** The handler ends every span it opens, but the [sendFunctionResponse]
    span when the second model call or its text throws. *)
Lemma handle_triple K O trace chat fc Q :
  In trace K -> (forall r, Q r O) -> (forall e id, Q (inl e) (O ++ [(id, "sendFunctionResponse")])) ->
  triple K O (handle_stock_call generate now_iso trace chat fc) Q.
Proof.
  intros Ht HQ HQe. unfold handle_stock_call.
  repeat first [tstep | apply getStockPrice_triple]; auto.
Qed.

Lemma stock_loop_triple K O trace chat fcs Q :
  In trace K -> (forall r, Q r O) -> (forall e id, Q (inl e) (O ++ [(id, "sendFunctionResponse")])) ->
  triple K O (stock_loop generate now_iso trace chat fcs) Q.
Proof.
  intros Ht HQ HQe. induction fcs as [|fc rest IH]; cbn [stock_loop]; [apply triple_ret, HQ|].
  destruct (is_stock_call fc); [|exact IH].
  repeat first [tstep | apply handle_triple]; auto.
Qed.

Lemma processQuery_triple K O q : triple K O (processQuery generate now_iso q) (query_post O).
Proof.
  unfold processQuery. repeat first [tstep | apply stock_loop_triple]; cbn [query_post]; eauto with tracing.
  all: first [reflexivity | left; reflexivity | right; eexists; left; reflexivity | right; eexists; right; reflexivity].
Qed.

(** C23: from any well-formed queue that ends no span twice, whatever the
    model answers, [processQuery] ends every span it opens exactly once
    when it returns; when it throws it leaves open at most one span of its
    own: the [sendMessage] span when the first model call or reading its
    reply throws, or the [sendFunctionResponse] span when the second one
    does; never a [startChat] or [getStockPrice] span. *)
Theorem processQuery_span_discipline K O q s :
  span_inv K O s ->
  exists O', span_inv K O' (snd (processQuery generate now_iso q s)) /\
             query_post O (fst (processQuery generate now_iso q s)) O'.
Proof. exact (processQuery_triple K O q s). Qed.

End Program.

Lemma span_inv_init : span_inv [] [] init_state.
Proof. split; [exact Langfuse.wf_new_client|]. split; [intros x []|]. split; [constructor | reflexivity]. Qed.

Lemma processQuery_span_discipline_witness :
  span_inv [] [] init_state /\
  exists O', span_inv [] O' (snd (processQuery offline_model clock apple_query init_state)) /\
             query_post [] (fst (processQuery offline_model clock apple_query init_state)) O'.
Proof.
  split; [exact span_inv_init|].
  apply (processQuery_span_discipline offline_model clock [] [] apple_query init_state). exact span_inv_init.
Defined.

End Tracing.
